(** * WebShepherd scan engine: a shallow embedding and its verified properties

    The development follows the layout of [backend/]: the Python primitives
    the engine relies on ([Py]), [config.py], [models.py], the document model
    of [scanner/parser.py], the rule catalogue of [scanner/rules/], the
    fetcher of [scanner/fetcher.py] and the orchestrator of
    [scanner/engine.py].  The properties of the engine are stated and proved
    at the end of the file.

    Conventions.
    - A Python [str] is a [string] whose characters are read as the code
      points U+0000..U+00FF.
    - A Python [float] is a primitive binary64 [float]; arithmetic is the
      IEEE 754 arithmetic of [PrimFloat], the one CPython uses.
    - A raised exception is a value [Raise e]; [try]/[except] is a match. *)

From Stdlib Require Import ZArith Ascii String List Lia QArith Qabs.
From Stdlib Require Import PrimFloat SpecFloat FloatOps Uint63.
From stdpp Require Import gmap strings list pretty.

Local Open Scope string_scope.
Local Open Scope list_scope.

(** ** Python primitives *)

Module Py.

(** *** Exceptions *)

Record Exception := { exc_type : string; exc_str : string }.

Definition ValueError (msg : string) : Exception :=
  {| exc_type := "ValueError"; exc_str := msg |}.
Definition IndexError (msg : string) : Exception :=
  {| exc_type := "IndexError"; exc_str := msg |}.

Inductive Result (A : Type) : Type :=
| Ok (a : A)
| Raise (e : Exception).
Arguments Ok {A} a.
Arguments Raise {A} e.

Definition bind {A B} (r : Result A) (k : A -> Result B) : Result B :=
  match r with
  | Ok a => k a
  | Raise e => Raise e
  end.

(** [mapM f l]: a comprehension or loop whose body may raise; the first
    exception ends it. *)
Fixpoint mapM {A B} (f : A -> Result B) (l : list A) : Result (list B) :=
  match l with
  | [] => Ok []
  | x :: l' => bind (f x) (fun y => bind (mapM f l') (fun ys => Ok (y :: ys)))
  end.

(** *** [str] *)

(** Truth value of a string: the empty string is falsy. *)
Definition truthy (s : string) : bool :=
  match s with
  | EmptyString => false
  | String _ _ => true
  end.

(** Truth value of an optional string ([None] and [''] are falsy). *)
Definition truthy_opt (o : option string) : bool :=
  match o with
  | Some s => truthy s
  | None => false
  end.

(** [o is not None] *)
Definition is_Some_bool {A} (o : option A) : bool :=
  match o with
  | Some _ => true
  | None => false
  end.

(** [a or b] on strings. *)
Definition or_else (a b : string) : string := if truthy a then a else b.

(** The characters [str.strip()] removes, below U+0100: TAB..CR, FS..US,
    SPACE, NEL and NBSP. *)
Definition isspace (c : ascii) : bool :=
  let n := nat_of_ascii c in
  (((9 <=? n) && (n <=? 13)) || ((28 <=? n) && (n <=? 32))
   || (n =? 133) || (n =? 160))%nat.

Fixpoint lstrip (s : string) : string :=
  match s with
  | EmptyString => EmptyString
  | String c s' => if isspace c then lstrip s' else s
  end.

Fixpoint rstrip (s : string) : string :=
  match s with
  | EmptyString => EmptyString
  | String c s' =>
      let r := rstrip s' in
      if isspace c && negb (truthy r) then EmptyString else String c r
  end.

Definition strip (s : string) : string := rstrip (lstrip s).

(** [str.lower()] below U+0100: A-Z and the accented capitals
    U+00C0..U+00DE (but the multiplication sign U+00D7) move up by 32. *)
Definition lower_char (c : ascii) : ascii :=
  let n := nat_of_ascii c in
  if (((65 <=? n) && (n <=? 90))
      || ((192 <=? n) && (n <=? 222) && negb (n =? 215)))%nat
  then ascii_of_nat (n + 32) else c.

Fixpoint lower (s : string) : string :=
  match s with
  | EmptyString => EmptyString
  | String c s' => String (lower_char c) (lower s')
  end.

(** [needle in hay] on strings: substring test. *)
Fixpoint contains (needle hay : string) : bool :=
  String.prefix needle hay
  || match hay with
     | EmptyString => false
     | String _ hay' => contains needle hay'
     end.

(** [s[:n]] *)
Fixpoint slice_to (n : nat) (s : string) : string :=
  match n, s with
  | S n', String c s' => String c (slice_to n' s')
  | _, _ => EmptyString
  end.

(** [l[:n]] is [take n l]; [sep.join(l)] is [String.concat sep l];
    [x in l] on a list of strings: *)
Definition in_list (x : string) (l : list string) : bool :=
  existsb (String.eqb x) l.

(** [f"'{s}'"] *)
Definition quoted (s : string) : string := "'" +:+ s +:+ "'".

(** [int(c)] for a one-character string. *)
Definition int_of_char (c : ascii) : Result nat :=
  let n := nat_of_ascii c in
  if ((48 <=? n) && (n <=? 57))%nat then Ok (n - 48)
  else Raise (ValueError ("invalid literal for int() with base 10: "
                            +:+ quoted (String c EmptyString))).

(** [sum(1 for x in l if p(x))] *)
Fixpoint sum_1_for {A} (p : A -> bool) (l : list A) : nat :=
  match l with
  | [] => 0
  | x :: l' => (if p x then 1 else 0) + sum_1_for p l'
  end.

(** *** [float] *)

(** [float(n)] for an integer: exact below 2^53 in magnitude, which covers
    every count and length the engine converts. *)
Definition float_of_Z (z : Z) : float :=
  if (z <? 0)%Z then (- of_uint63 (Uint63.of_Z (- z)))%float
  else of_uint63 (Uint63.of_Z z).

Definition float_of_nat (n : nat) : float := float_of_Z (Z.of_nat n).

(** Nearest integer to [a / b] for [b > 0], ties to the even integer. *)
Definition div_half_even (a b : Z) : Z :=
  let q := (a / b)%Z in
  let r := (a mod b)%Z in
  match (2 * r ?= b)%Z with
  | Lt => q
  | Gt => (q + 1)%Z
  | Eq => if Z.even q then q else (q + 1)%Z
  end.

(** The value [m * 2^e] in tenths, correctly rounded (ties to even): what
    both [round(x, 1)] and the format [.1f] compute from the exact binary
    value of [x]. *)
Definition tenths_of (m : positive) (e : Z) : Z :=
  if (0 <=? e)%Z then (10 * Z.pos m * 2 ^ e)%Z
  else div_half_even (10 * Z.pos m) (2 ^ (- e)).

(** [round(x, 1)]: the float nearest to the decimal that is nearest to
    [x] with one digit after the point.  An integral [x], an infinity and
    a NaN are returned as they are.  (Exact while the tenths stay below
    2^53, that is for |x| < 9e14.) *)
Definition round1 (x : float) : float :=
  match Prim2SF x with
  | S754_finite s m e =>
      if (0 <=? e)%Z then x
      else
        let r := (float_of_Z (tenths_of m e) / 10)%float in
        if s then (- r)%float else r
  | _ => x
  end.

(** [f"{x:.1f}"] *)
Definition format_1f (x : float) : string :=
  match Prim2SF x with
  | S754_zero s => (if s then "-" else "") +:+ "0.0"
  | S754_infinity s => if s then "-inf" else "inf"
  | S754_nan => "nan"
  | S754_finite s m e =>
      let n := tenths_of m e in
      (if s then "-" else "") +:+ pretty (n / 10)%Z +:+ "." +:+ pretty (n mod 10)%Z
  end.

(** [int(x)] for a finite float: truncation towards zero.  (The engine
    applies it to a duration, which is finite.) *)
Definition int_of_float (x : float) : Z :=
  match Prim2SF x with
  | S754_finite s m e =>
      let a := if (0 <=? e)%Z then (Z.pos m * 2 ^ e)%Z
               else (Z.pos m / 2 ^ (- e))%Z in
      if s then (- a)%Z else a
  | _ => 0%Z
  end.

End Py.
Import Py.


(** ** [config.py] *)

Module config.

Record Settings := {
  MAX_HTML_SIZE_MB : Z;
  REQUEST_TIMEOUT : Z;
  MAX_REDIRECTS : Z;
  USER_AGENT : string
}.

(** The values of the class body (no environment override). *)
Definition settings : Settings :=
  {| MAX_HTML_SIZE_MB := 5;
     REQUEST_TIMEOUT := 10;
     MAX_REDIRECTS := 5;
     USER_AGENT := "WebShepherd/1.0 (WCAG Accessibility Checker; +https://yorik.space/webshepherd)" |}.

End config.

(** ** [models.py] *)

Module SeverityLevel.
Inductive t := PASS | WARNING | FAIL.
Definition value (s : t) : string :=
  match s with
  | PASS => "pass"
  | WARNING => "warning"
  | FAIL => "fail"
  end.
End SeverityLevel.

Module ScanStatus.
Inductive t := PENDING | SCANNING | COMPLETE | FAILED.
Definition value (s : t) : string :=
  match s with
  | PENDING => "pending"
  | SCANNING => "scanning"
  | COMPLETE => "complete"
  | FAILED => "failed"
  end.
(** [ScanStatus(text)]: the member with that value, or [ValueError]. *)
Definition of_value (v : string) : Result t :=
  if String.eqb v "pending" then Ok PENDING
  else if String.eqb v "scanning" then Ok SCANNING
  else if String.eqb v "complete" then Ok COMPLETE
  else if String.eqb v "failed" then Ok FAILED
  else Raise (ValueError (quoted v +:+ " is not a valid ScanStatus")).
End ScanStatus.

Module WCAGLevel.
Inductive t := A | AA | AAA.
End WCAGLevel.

(** A point in time, in microseconds. *)
Definition datetime := Z.

Module models.

Record Finding := {
  rule_code : string;
  severity : SeverityLevel.t;
  message : string;
  element : option string;
  wcag_reference : string;
  wcag_level : WCAGLevel.t;
  principle : string;
  remediation : string;
  count : nat
}.

Record ScanResponse := {
  scan_id : string;
  url : string;
  status : ScanStatus.t;
  score : option float;
  findings : list Finding;
  total_checks : nat;
  passed_checks : nat;
  warnings : nat;
  failures : nat;
  created_at : datetime;
  completed_at : option datetime;
  scan_duration_ms : option Z;
  perceivable_issues : nat;
  operable_issues : nat;
  understandable_issues : nat;
  robust_issues : nat
}.

End models.
Import models.

(** ** [scanner/parser.py]: the document model *)

Module parser.

(** The tree BeautifulSoup builds.  [Comment] stands for every string that
    [get_text()] leaves out (comments, declarations and the like).  The
    attributes the rules read (alt, lang, type, id, for, role, value, title,
    aria-label, aria-labelledby) are all single-valued, so an attribute
    value is a string. *)
#[local] Set Warnings "-register-all".
Inductive Node :=
| Tag (name : string) (attrs : gmap string string) (contents : list Node)
| NavigableString (text : string)
| Comment (text : string).

(** The root object [BeautifulSoup(...)] returns. *)
Definition document (contents : list Node) : Node :=
  Tag "[document]" ∅ contents.

(** A tag met while walking the tree, with its [.parent]. *)
Record Element := { parent : Node; node : Node }.

(** [tag.name] *)
Definition name_of (n : Node) : string :=
  match n with
  | Tag name _ _ => name
  | _ => ""
  end.

Definition is_tag (n : Node) : bool :=
  match n with
  | Tag _ _ _ => true
  | _ => false
  end.

(** [tag.get(key)] and [tag.get(key, default)] *)
Definition get (n : Node) (key : string) : option string :=
  match n with
  | Tag _ attrs _ => attrs !! key
  | _ => None
  end.

Definition get_or (n : Node) (key dflt : string) : string :=
  default dflt (get n key).

(** [tag.get_text()]: the strings below the tag, joined. *)
Fixpoint get_text (n : Node) : string :=
  match n with
  | Tag _ _ cs => String.concat "" (map get_text cs)
  | NavigableString s => s
  | Comment _ => ""
  end.

(** [tag.descendants]: everything below the tag, in document order. *)
Fixpoint descendants (n : Node) : list Element :=
  match n with
  | Tag _ _ cs =>
      flat_map (fun c => {| parent := n; node := c |} :: descendants c) cs
  | _ => []
  end.

(** What [find_all] is asked to match: a tag name or a list of names, and
    attribute constraints ([attr=True]: present; [attr="v"]: equal to the
    non-empty string [v]). *)
Inductive AttrMatch := Present | Equals (v : string).

Definition attr_matches (n : Node) (c : string * AttrMatch) : bool :=
  match get n c.1, c.2 with
  | Some _, Present => true
  | Some v, Equals w => String.eqb v w
  | None, _ => false
  end.

Definition matches (names : option (list string))
    (attrs : list (string * AttrMatch)) (n : Node) : bool :=
  is_tag n
  && match names with
     | Some l => in_list (name_of n) l
     | None => true
     end
  && forallb (attr_matches n) attrs.

(** [tag.find_all(names, attrs)] and [tag.find(names, attrs)] *)
Definition find_all_in (root : Node) (names : option (list string))
    (attrs : list (string * AttrMatch)) : list Element :=
  List.filter (fun e => matches names attrs (node e)) (descendants root).

Definition find_in (root : Node) (names : option (list string))
    (attrs : list (string * AttrMatch)) : option Element :=
  head (find_all_in root names attrs).

(** What the engine takes from outside the repository: BeautifulSoup's
    parser and serialiser, and the order in which Python iterates over a
    set of strings. *)
Class Runtime := {
  (** [BeautifulSoup(html, features)] *)
  BeautifulSoup : string -> string -> Result Node;
  (** [str(tag)] *)
  decode : Node -> string;
  (** [list(s)] for a set [s] *)
  set_order : gset string -> list string;
  set_order_perm : forall s, set_order s ≡ₚ elements s
}.

Record ParsedHTML := { soup : Node; raw_html : string }.

Definition find_all (self : ParsedHTML) (tag : string)
    (attrs : list (string * AttrMatch)) : list Element :=
  find_all_in (soup self) (Some [tag]) attrs.

Definition find (self : ParsedHTML) (tag : string)
    (attrs : list (string * AttrMatch)) : option Element :=
  find_in (soup self) (Some [tag]) attrs.

Definition html_tag (self : ParsedHTML) : option Element :=
  find_in (soup self) (Some ["html"]) [].

Definition title (self : ParsedHTML) : option string :=
  match find_in (soup self) (Some ["title"]) [] with
  | Some title_tag => Some (strip (get_text (node title_tag)))
  | None => None
  end.

Definition images (self : ParsedHTML) : list Element :=
  find_all_in (soup self) (Some ["img"]) [].

Definition links (self : ParsedHTML) : list Element :=
  find_all_in (soup self) (Some ["a"]) [].

Definition forms (self : ParsedHTML) : list Element :=
  find_all_in (soup self) (Some ["form"]) [].

Definition inputs (self : ParsedHTML) : list Element :=
  find_all_in (soup self) (Some ["input"; "textarea"; "select"]) [].

Definition headings (self : ParsedHTML) : list Element :=
  find_all_in (soup self) (Some ["h1"; "h2"; "h3"; "h4"; "h5"; "h6"]) [].

Definition buttons (self : ParsedHTML) : list Element :=
  find_all_in (soup self) (Some ["button"]) []
  ++ find_all_in (soup self) (Some ["input"]) [("type", Equals "button")].

Definition get_elements_with_role (self : ParsedHTML) (role : string)
    : list Element :=
  find_all_in (soup self) None [("role", Equals role)].

Definition get_elements_with_aria_attribute (self : ParsedHTML)
    (attr : string) : list Element :=
  find_all_in (soup self) None [(attr, Present)].

(** The values of every [id] attribute, in document order. *)
Definition get_all_ids (self : ParsedHTML) : list string :=
  omap (fun elem => get (node elem) "id")
       (find_all_in (soup self) None [("id", Present)]).

(** [HTMLParser.parse]: lxml first, html.parser when that raises. *)
Definition parse `{Runtime} (html : string) : Result ParsedHTML :=
  match BeautifulSoup html "lxml" with
  | Ok soup => Ok {| soup := soup; raw_html := html |}
  | Raise _ =>
      bind (BeautifulSoup html "html.parser")
           (fun soup => Ok {| soup := soup; raw_html := html |})
  end.

End parser.
Import parser.

(** ** [scanner/rules/base.py] *)

Module base.

(** The class attributes every rule overrides. *)
Record Metadata := {
  rule_code : string;
  wcag_reference : string;
  wcag_level : WCAGLevel.t;
  principle : string
}.

(** [WCAGRule.create_finding]; the defaults of the source, [element=None]
    and [count=1], are written out by the callers. *)
Definition create_finding (self : Metadata) (severity : SeverityLevel.t)
    (message remediation : string) (element : option string) (count : nat)
    : Finding :=
  {| models.rule_code := rule_code self;
     models.severity := severity;
     models.message := message;
     models.element := element;
     models.wcag_reference := wcag_reference self;
     models.wcag_level := wcag_level self;
     models.principle := principle self;
     models.remediation := remediation;
     models.count := count |}.

(** A rule class: its attributes and its [check] method. *)
Record WCAGRule := {
  metadata : Metadata;
  check : ParsedHTML -> Result (list Finding)
}.

(** [str(elem)[:100]] *)
Definition snippet `{Runtime} (elem : Element) : string :=
  slice_to 100 (decode (node elem)).

End base.

(** ** [scanner/rules/perceivable.py] *)

Module ImageAltTextRule.
Section Rule.
Context `{Runtime}.

Definition metadata : base.Metadata :=
  {| base.rule_code := "IMG_ALT_MISSING";
     base.wcag_reference := "1.1.1";
     base.wcag_level := WCAGLevel.AA;
     base.principle := "Perceivable" |}.

(** The loop of [check]: the snippets of the images whose [alt] is [None]. *)
Definition missing_alt (parsed_html : ParsedHTML) : list string :=
  map base.snippet
      (List.filter (fun img => negb (is_Some_bool (get (node img) "alt")))
                   (images parsed_html)).

Definition check (parsed_html : ParsedHTML) : Result (list Finding) :=
  let missing_alt := missing_alt parsed_html in
  match missing_alt with
  | _ :: _ =>
      Ok [base.create_finding metadata SeverityLevel.FAIL
            (pretty (length missing_alt) +:+ " images missing alt attribute")
            "Add descriptive alt text to all images. Use alt='' for decorative images."
            (head missing_alt)
            (length missing_alt)]
  | [] =>
      Ok [base.create_finding metadata SeverityLevel.PASS
            "All images have alt attributes"
            "N/A - Check passed"
            None 1]
  end.

Definition rule : base.WCAGRule :=
  {| base.metadata := metadata; base.check := check |}.

End Rule.
End ImageAltTextRule.

Module HTMLLangAttributeRule.
Section Rule.
Context `{Runtime}.

Definition metadata : base.Metadata :=
  {| base.rule_code := "HTML_LANG_MISSING";
     base.wcag_reference := "3.1.1";
     base.wcag_level := WCAGLevel.AA;
     base.principle := "Understandable" |}.

Definition check (parsed_html : ParsedHTML) : Result (list Finding) :=
  match html_tag parsed_html with
  | None =>
      Ok [base.create_finding metadata SeverityLevel.FAIL
            "No <html> tag found"
            "Ensure document has a valid <html> tag with lang attribute"
            None 1]
  | Some html_tag =>
      let lang := get (node html_tag) "lang" in
      if negb (truthy_opt lang) then
        Ok [base.create_finding metadata SeverityLevel.FAIL
              "<html> tag missing lang attribute"
              "Add lang attribute to <html> tag (e.g., <html lang='en'>)"
              (Some (base.snippet html_tag)) 1]
      else
        Ok [base.create_finding metadata SeverityLevel.PASS
              ("Page language is set to " +:+ quoted (default "" lang))
              "N/A - Check passed"
              None 1]
  end.

Definition rule : base.WCAGRule :=
  {| base.metadata := metadata; base.check := check |}.

End Rule.
End HTMLLangAttributeRule.

Module PageTitleRule.

Definition metadata : base.Metadata :=
  {| base.rule_code := "PAGE_TITLE_MISSING";
     base.wcag_reference := "2.4.2";
     base.wcag_level := WCAGLevel.AA;
     base.principle := "Operable" |}.

Definition check (parsed_html : ParsedHTML) : Result (list Finding) :=
  let title := title parsed_html in
  if negb (truthy_opt title) then
    Ok [base.create_finding metadata SeverityLevel.FAIL
          "Page has no <title> element"
          "Add a descriptive <title> element in the <head> section"
          None 1]
  else
    let title := default "" title in
    if (String.length (strip title) =? 0)%nat then
      Ok [base.create_finding metadata SeverityLevel.FAIL
            "Page title is empty"
            "Provide a descriptive, meaningful page title"
            (Some ("<title>" +:+ title +:+ "</title>")) 1]
    else if (String.length title <? 3)%nat then
      Ok [base.create_finding metadata SeverityLevel.WARNING
            ("Page title is very short: " +:+ quoted title)
            "Provide a more descriptive page title (at least a few words)"
            (Some ("<title>" +:+ title +:+ "</title>")) 1]
    else
      Ok [base.create_finding metadata SeverityLevel.PASS
            ("Page has title: " +:+ quoted title)
            "N/A - Check passed"
            None 1].

Definition rule : base.WCAGRule :=
  {| base.metadata := metadata; base.check := check |}.

End PageTitleRule.

(** ** [scanner/rules/operable.py] *)

Module FormLabelRule.
Section Rule.
Context `{Runtime}.

Definition metadata : base.Metadata :=
  {| base.rule_code := "FORM_LABEL_MISSING";
     base.wcag_reference := "3.3.2";
     base.wcag_level := WCAGLevel.AA;
     base.principle := "Operable" |}.

(** Hidden inputs and buttons, which the loop skips with [continue]. *)
Definition skipped (input_elem : Element) : bool :=
  let input_type := lower (get_or (node input_elem) "type" "text") in
  in_list input_type ["hidden"; "submit"; "button"; "reset"].

(** The value of [has_label] at the end of one pass of the loop. *)
Definition has_label (parsed_html : ParsedHTML) (input_elem : Element) : bool :=
  let input_id := get (node input_elem) "id" in
  (* label with for attribute *)
  (truthy_opt input_id
   && is_Some_bool
        (find parsed_html "label" [("for", Equals (default "" input_id))]))
  (* input wrapped in label *)
  || String.eqb (name_of (parent input_elem)) "label"
  (* aria-label or aria-labelledby *)
  || (truthy_opt (get (node input_elem) "aria-label")
      || truthy_opt (get (node input_elem) "aria-labelledby"))
  (* title attribute *)
  || truthy_opt (get (node input_elem) "title").

Definition unlabeled (parsed_html : ParsedHTML) : list string :=
  map base.snippet
      (List.filter
         (fun input_elem =>
            negb (skipped input_elem) && negb (has_label parsed_html input_elem))
         (inputs parsed_html)).

Definition check (parsed_html : ParsedHTML) : Result (list Finding) :=
  let inputs := inputs parsed_html in
  let unlabeled := unlabeled parsed_html in
  match unlabeled with
  | _ :: _ =>
      Ok [base.create_finding metadata SeverityLevel.FAIL
            (pretty (length unlabeled) +:+ " form inputs missing labels")
            "Add <label> elements with 'for' attribute, or use aria-label"
            (head unlabeled)
            (length unlabeled)]
  | [] =>
      if (0 <? length inputs)%nat then
        Ok [base.create_finding metadata SeverityLevel.PASS
              ("All " +:+ pretty (length inputs) +:+ " form inputs have labels")
              "N/A - Check passed"
              None 1]
      else
        Ok [base.create_finding metadata SeverityLevel.PASS
              "No form inputs found on page"
              "N/A - No inputs to check"
              None 1]
  end.

Definition rule : base.WCAGRule :=
  {| base.metadata := metadata; base.check := check |}.

End Rule.
End FormLabelRule.

Module ButtonAccessibleNameRule.
Section Rule.
Context `{Runtime}.

Definition metadata : base.Metadata :=
  {| base.rule_code := "BUTTON_NAME_MISSING";
     base.wcag_reference := "4.1.2";
     base.wcag_level := WCAGLevel.AA;
     base.principle := "Operable" |}.

(** The value of [has_name] at the end of one pass of the loop. *)
Definition has_name (btn : Element) : bool :=
  truthy (strip (get_text (node btn)))
  || truthy_opt (get (node btn) "value")
  || truthy_opt (get (node btn) "aria-label")
  || truthy_opt (get (node btn) "aria-labelledby")
  || truthy_opt (get (node btn) "title").

Definition unnamed (parsed_html : ParsedHTML) : list string :=
  map base.snippet
      (List.filter (fun btn => negb (has_name btn)) (buttons parsed_html)).

Definition check (parsed_html : ParsedHTML) : Result (list Finding) :=
  let buttons := buttons parsed_html in
  let unnamed := unnamed parsed_html in
  match unnamed with
  | _ :: _ =>
      Ok [base.create_finding metadata SeverityLevel.FAIL
            (pretty (length unnamed) +:+ " buttons missing accessible names")
            "Add text content, value, aria-label, or title to buttons"
            (head unnamed)
            (length unnamed)]
  | [] =>
      if (0 <? length buttons)%nat then
        Ok [base.create_finding metadata SeverityLevel.PASS
              ("All " +:+ pretty (length buttons) +:+ " buttons have accessible names")
              "N/A - Check passed"
              None 1]
      else
        Ok [base.create_finding metadata SeverityLevel.PASS
              "No buttons found on page"
              "N/A - No buttons to check"
              None 1]
  end.

Definition rule : base.WCAGRule :=
  {| base.metadata := metadata; base.check := check |}.

End Rule.
End ButtonAccessibleNameRule.

Module LinkTextRule.
Section Rule.
Context `{Runtime}.

Definition metadata : base.Metadata :=
  {| base.rule_code := "LINK_TEXT_EMPTY";
     base.wcag_reference := "2.4.4";
     base.wcag_level := WCAGLevel.AA;
     base.principle := "Operable" |}.

Definition vague_texts : list string :=
  ["click here"; "read more"; "more"; "here"; "link"].

(** [effective_text] as the loop body computes it for one link. *)
Definition effective_text (link : Element) : string :=
  let text := lower (strip (get_text (node link))) in
  let aria_label := strip (get_or (node link) "aria-label" "") in
  let img := find_in (node link) (Some ["img"]) [] in
  let img_alt :=
    match img with
    | Some img => strip (get_or (node img) "alt" "")
    | None => ""
    end in
  or_else (or_else text aria_label) img_alt.

Definition is_empty_link (link : Element) : bool :=
  negb (truthy (effective_text link)).

Definition is_vague_link (link : Element) : bool :=
  truthy (effective_text link) && in_list (effective_text link) vague_texts.

Definition empty_links (parsed_html : ParsedHTML) : list string :=
  map base.snippet (List.filter is_empty_link (links parsed_html)).

Definition vague_links (parsed_html : ParsedHTML) : list string :=
  map base.snippet (List.filter is_vague_link (links parsed_html)).

Definition check (parsed_html : ParsedHTML) : Result (list Finding) :=
  let links := links parsed_html in
  let empty_links := empty_links parsed_html in
  let vague_links := vague_links parsed_html in
  let findings := [] in
  let findings :=
    match empty_links with
    | _ :: _ =>
        findings ++
        [base.create_finding metadata SeverityLevel.FAIL
           (pretty (length empty_links) +:+ " links have no text or accessible name")
           "Add descriptive text or aria-label to links"
           (head empty_links)
           (length empty_links)]
    | [] => findings
    end in
  let findings :=
    match vague_links with
    | _ :: _ =>
        findings ++
        [base.create_finding metadata SeverityLevel.WARNING
           (pretty (length vague_links) +:+ " links have vague text (e.g., 'click here')")
           "Use descriptive link text that makes sense out of context"
           (head vague_links)
           (length vague_links)]
    | [] => findings
    end in
  let findings :=
    match findings with
    | [] =>
        if (0 <? length links)%nat then
          findings ++
          [base.create_finding metadata SeverityLevel.PASS
             ("All " +:+ pretty (length links) +:+ " links have meaningful text")
             "N/A - Check passed"
             None 1]
        else
          findings ++
          [base.create_finding metadata SeverityLevel.PASS
             "No links found on page"
             "N/A - No links to check"
             None 1]
    | _ :: _ => findings
    end in
  Ok findings.

Definition rule : base.WCAGRule :=
  {| base.metadata := metadata; base.check := check |}.

End Rule.
End LinkTextRule.

(** ** [scanner/rules/understandable.py] *)

Module HeadingHierarchyRule.

Definition metadata : base.Metadata :=
  {| base.rule_code := "HEADING_SKIP_LEVEL";
     base.wcag_reference := "1.3.1";
     base.wcag_level := WCAGLevel.AA;
     base.principle := "Understandable" |}.

(** [int(h.name[1])] *)
Definition level_of (h : Element) : Result nat :=
  match String.get 1 (name_of (node h)) with
  | Some c => int_of_char c
  | None => Raise (IndexError "string index out of range")
  end.

(** The loop over [enumerate(levels)]: [i] is the index, [prev_level] the
    level met before, and each level comes with its heading [headings[i]]. *)
Fixpoint skipped_from (i prev_level : nat) (hs : list (nat * Element))
    : list string :=
  match hs with
  | [] => []
  | (level, h) :: hs' =>
      (if (i =? 0)%nat then
         if negb (level =? 1)%nat then
           ["First heading is " +:+ name_of (node h) +:+ ", should start with h1"]
         else []
       else
         if (prev_level + 1 <? level)%nat then
           ["Skipped from " +:+ pretty prev_level +:+ " to " +:+ pretty level
            +:+ " at heading: " +:+ quoted (slice_to 30 (strip (get_text (node h))))]
         else [])
      ++ skipped_from (S i) level hs'
  end.

Definition check (parsed_html : ParsedHTML) : Result (list Finding) :=
  let headings := headings parsed_html in
  match headings with
  | [] =>
      Ok [base.create_finding metadata SeverityLevel.WARNING
            "No heading elements found on page"
            "Add heading structure (h1-h6) to organize content"
            None 1]
  | _ :: _ =>
      bind (mapM level_of headings) (fun levels =>
        let skipped := skipped_from 0 0 (combine levels headings) in
        match skipped with
        | _ :: _ =>
            Ok [base.create_finding metadata SeverityLevel.WARNING
                  ("Heading hierarchy has " +:+ pretty (length skipped) +:+ " issues")
                  "Use sequential heading levels (h1 -> h2 -> h3) without skipping"
                  (head skipped)
                  (length skipped)]
        | [] =>
            Ok [base.create_finding metadata SeverityLevel.PASS
                  ("Heading hierarchy is correct (" +:+ pretty (length headings)
                   +:+ " headings)")
                  "N/A - Check passed"
                  None 1]
        end)
  end.

Definition rule : base.WCAGRule :=
  {| base.metadata := metadata; base.check := check |}.

End HeadingHierarchyRule.

Module H1ExistsRule.

Definition metadata : base.Metadata :=
  {| base.rule_code := "H1_MISSING_OR_MULTIPLE";
     base.wcag_reference := "2.4.6";
     base.wcag_level := WCAGLevel.AA;
     base.principle := "Understandable" |}.

(** The three branches on [h1_count] are the three shapes of the list. *)
Definition check (parsed_html : ParsedHTML) : Result (list Finding) :=
  let h1_elements := find_all parsed_html "h1" [] in
  let h1_count := length h1_elements in
  match h1_elements with
  | [] =>
      Ok [base.create_finding metadata SeverityLevel.WARNING
            "No <h1> element found on page"
            "Add a single <h1> element to serve as the main page heading"
            None 1]
  | [h1] =>
      let h1_text := strip (get_text (node h1)) in
      Ok [base.create_finding metadata SeverityLevel.PASS
            ("Page has one <h1>: " +:+ quoted (slice_to 50 h1_text))
            "N/A - Check passed"
            None 1]
  | _ :: _ :: _ =>
      let h1_texts :=
        map (fun h => slice_to 30 (strip (get_text (node h))))
            (take 3 h1_elements) in
      Ok [base.create_finding metadata SeverityLevel.WARNING
            ("Multiple <h1> elements found (" +:+ pretty h1_count +:+ "): "
             +:+ String.concat ", " h1_texts)
            "Use only one <h1> per page for the main heading"
            None h1_count]
  end.

Definition rule : base.WCAGRule :=
  {| base.metadata := metadata; base.check := check |}.

End H1ExistsRule.

(** ** [scanner/rules/robust.py] *)

Module DuplicateIDRule.
Section Rule.
Context `{Runtime}.

Definition metadata : base.Metadata :=
  {| base.rule_code := "DUPLICATE_ID";
     base.wcag_reference := "4.1.1";
     base.wcag_level := WCAGLevel.AA;
     base.principle := "Robust" |}.

(** One pass of the loop on the pair [(seen, duplicates)]. *)
Definition step (st : gset string * gset string) (id_val : string)
    : gset string * gset string :=
  let '(seen, duplicates) := st in
  let duplicates :=
    if bool_decide (id_val ∈ seen) then {[id_val]} ∪ duplicates else duplicates in
  ({[id_val]} ∪ seen, duplicates).

(** The set [duplicates] when the loop ends. *)
Definition duplicates (all_ids : list string) : gset string :=
  (fold_left step all_ids (∅, ∅)).2.

Definition check (parsed_html : ParsedHTML) : Result (list Finding) :=
  let all_ids := get_all_ids parsed_html in
  let duplicates := duplicates all_ids in
  if negb (size duplicates =? 0)%nat then
    let dup_list :=
      String.concat ", " (map quoted (take 5 (set_order duplicates))) in
    Ok [base.create_finding metadata SeverityLevel.FAIL
          (pretty (size duplicates) +:+ " duplicate IDs found: " +:+ dup_list)
          "Ensure all ID attributes are unique within the document"
          None
          (size duplicates)]
  else if (0 <? length all_ids)%nat then
    Ok [base.create_finding metadata SeverityLevel.PASS
          ("All " +:+ pretty (length all_ids) +:+ " IDs are unique")
          "N/A - Check passed"
          None 1]
  else
    Ok [base.create_finding metadata SeverityLevel.PASS
          "No ID attributes found"
          "N/A - No IDs to check"
          None 1].

Definition rule : base.WCAGRule :=
  {| base.metadata := metadata; base.check := check |}.

End Rule.
End DuplicateIDRule.

Module ARIARoleValidRule.
Section Rule.
Context `{Runtime}.

Definition metadata : base.Metadata :=
  {| base.rule_code := "ARIA_ROLE_INVALID";
     base.wcag_reference := "4.1.2";
     base.wcag_level := WCAGLevel.AA;
     base.principle := "Robust" |}.

Definition VALID_ROLES : gset string :=
  list_to_set
    ["alert"; "alertdialog"; "application"; "article"; "banner"; "button";
     "checkbox"; "columnheader"; "combobox"; "complementary"; "contentinfo";
     "definition"; "dialog"; "directory"; "document"; "feed"; "figure";
     "form"; "grid"; "gridcell"; "group"; "heading"; "img"; "link"; "list";
     "listbox"; "listitem"; "log"; "main"; "marquee"; "math"; "menu";
     "menubar"; "menuitem"; "menuitemcheckbox"; "menuitemradio"; "navigation";
     "none"; "note"; "option"; "presentation"; "progressbar"; "radio";
     "radiogroup"; "region"; "row"; "rowgroup"; "rowheader"; "scrollbar";
     "search"; "searchbox"; "separator"; "slider"; "spinbutton"; "status";
     "switch"; "tab"; "table"; "tablist"; "tabpanel"; "term"; "textbox";
     "timer"; "toolbar"; "tooltip"; "tree"; "treegrid"; "treeitem"].

Definition role_of (elem : Element) : string :=
  lower (strip (get_or (node elem) "role" "")).

Definition is_invalid (elem : Element) : bool :=
  truthy (role_of elem) && negb (bool_decide (role_of elem ∈ VALID_ROLES)).

(** The pairs [(role, str(elem)[:100])] the loop collects. *)
Definition invalid_roles (parsed_html : ParsedHTML) : list (string * string) :=
  map (fun elem => (role_of elem, base.snippet elem))
      (List.filter is_invalid
         (find_all_in (soup parsed_html) None [("role", Present)])).

Definition check (parsed_html : ParsedHTML) : Result (list Finding) :=
  let elements_with_role :=
    find_all_in (soup parsed_html) None [("role", Present)] in
  let invalid_roles := invalid_roles parsed_html in
  match invalid_roles with
  | _ :: _ =>
      let role_names :=
        String.concat ", " (map (fun r => quoted r.1) (take 5 invalid_roles)) in
      Ok [base.create_finding metadata SeverityLevel.FAIL
            (pretty (length invalid_roles) +:+ " invalid ARIA roles found: "
             +:+ role_names)
            "Use only valid ARIA 1.2 role values"
            (snd <$> head invalid_roles)
            (length invalid_roles)]
  | [] =>
      if (0 <? length elements_with_role)%nat then
        Ok [base.create_finding metadata SeverityLevel.PASS
              ("All " +:+ pretty (length elements_with_role) +:+ " ARIA roles are valid")
              "N/A - Check passed"
              None 1]
      else
        Ok [base.create_finding metadata SeverityLevel.PASS
              "No ARIA roles found"
              "N/A - No roles to check"
              None 1]
  end.

Definition rule : base.WCAGRule :=
  {| base.metadata := metadata; base.check := check |}.

End Rule.
End ARIARoleValidRule.

(** ** [scanner/rules/__init__.py] *)

Module rules.

(** Registry of all rules to execute. *)
Definition ALL_RULES `{Runtime} : list base.WCAGRule :=
  [ (* Perceivable *)
    ImageAltTextRule.rule;
    HTMLLangAttributeRule.rule;
    PageTitleRule.rule;
    (* Operable *)
    FormLabelRule.rule;
    ButtonAccessibleNameRule.rule;
    LinkTextRule.rule;
    (* Understandable *)
    HeadingHierarchyRule.rule;
    H1ExistsRule.rule;
    (* Robust *)
    DuplicateIDRule.rule;
    ARIARoleValidRule.rule ].

End rules.

(** ** [scanner/fetcher.py] *)

Module fetcher.

(** What [client.get(url, headers=headers)] followed by
    [response.raise_for_status()] comes to, in httpx's hands: one of the
    exceptions the method handles, any other exception, or a response with
    a success status. *)
Inductive Exchange :=
| TimeoutException
| HTTPStatusError (status_code : Z) (reason_phrase : string)
| RequestError (text : string)
| OtherException (e : Exception)
| Response (content_type : option string) (content : list Byte.byte)
           (text : string).

Record URLFetcher := {
  max_size : Z;
  max_redirects : Z
}.

(** [URLFetcher.__init__] *)
Definition init (settings : config.Settings) : URLFetcher :=
  {| max_size := config.MAX_HTML_SIZE_MB settings * 1024 * 1024;
     max_redirects := config.MAX_REDIRECTS settings |}.

Definition invalid_content_type (content_type : string) : Exception :=
  ValueError ("Invalid content type: " +:+ content_type +:+ ". Expected text/html").

Definition content_too_large (settings : config.Settings) (content_length : Z)
    : Exception :=
  ValueError
    ("Content too large: "
     +:+ format_1f (float_of_Z content_length / 1024 / 1024)%float
     +:+ " MB (max: " +:+ pretty (config.MAX_HTML_SIZE_MB settings) +:+ " MB)").

(** [URLFetcher.fetch], given what the exchange with the server came to. *)
Definition fetch (self : URLFetcher) (settings : config.Settings)
    (exchange : Exchange) : Result string :=
  match exchange with
  | Response content_type content text =>
      (* Check content type *)
      let content_type := default "" content_type in
      if negb (contains "text/html" content_type) then
        Raise (invalid_content_type content_type)
      else
        (* Check content size *)
        let content_length := Z.of_nat (length content) in
        if (max_size self <? content_length)%Z then
          Raise (content_too_large settings content_length)
        else Ok text
  | TimeoutException =>
      Raise (ValueError ("Request timeout after "
                         +:+ pretty (config.REQUEST_TIMEOUT settings)
                         +:+ " seconds"))
  | HTTPStatusError status_code reason_phrase =>
      Raise (ValueError ("HTTP " +:+ pretty status_code +:+ ": " +:+ reason_phrase))
  | RequestError text =>
      Raise (ValueError ("Failed to fetch URL: " +:+ text))
  | OtherException e => Raise e
  end.

End fetcher.

(** ** [database.py] *)

Module database.

(** A row of the table [scans] (the surrogate key [id] left out: rows are
    found by [scan_id], which is unique). *)
Record ScanRecord := {
  scan_id : string;
  url : string;
  status : string;
  score : option float;
  findings : option (list Finding);
  total_checks : nat;
  passed_checks : nat;
  warnings : nat;
  failures : nat;
  perceivable_issues : nat;
  operable_issues : nat;
  understandable_issues : nat;
  robust_issues : nat;
  created_at : datetime;
  completed_at : option datetime;
  scan_duration_ms : option Z;
  error_message : option string
}.

(** [ScanRecord(scan_id=..., url=..., status=...)] once inserted: the other
    columns take their defaults. *)
Definition new_record (scan_id url status : string) (now : datetime)
    : ScanRecord :=
  {| scan_id := scan_id; url := url; status := status;
     score := None; findings := None;
     total_checks := 0; passed_checks := 0; warnings := 0; failures := 0;
     perceivable_issues := 0; operable_issues := 0;
     understandable_issues := 0; robust_issues := 0;
     created_at := now; completed_at := None; scan_duration_ms := None;
     error_message := None |}.

(** [session.add(record); await session.commit()]: the unique index on
    [scan_id] refuses a second row with the same value.  (The text of the
    error is the database driver's; the one here stands for it.) *)
Definition add (table : gmap string ScanRecord) (record : ScanRecord)
    : Result (gmap string ScanRecord) :=
  match table !! scan_id record with
  | Some _ =>
      Raise {| exc_type := "IntegrityError";
               exc_str := "UNIQUE constraint failed: scans.scan_id" |}
  | None => Ok (<[scan_id record := record]> table)
  end.

End database.

(** ** [scanner/engine.py] *)

Module engine.

(** What one call of [scan_url] reads from the world: the UUID drawn, the
    clock at the start, at the insertion of the row and at the end, and the
    exchange with the server. *)
Record World := {
  uuid4 : string;
  utcnow_start : datetime;
  utcnow_insert : datetime;
  utcnow_end : datetime;
  exchange : fetcher.Exchange
}.

Record ScanEngine := {
  fetcher : fetcher.URLFetcher;
  rules : list base.WCAGRule
}.

(** [ScanEngine.__init__] *)
Definition init `{Runtime} (settings : config.Settings) : ScanEngine :=
  {| fetcher := fetcher.init settings; rules := rules.ALL_RULES |}.

(** The loop over [self.rules]: every rule's findings, in catalogue order;
    an exception raised by a rule ends the loop. *)
Fixpoint run_rules (rules : list base.WCAGRule) (parsed_html : ParsedHTML)
    : Result (list Finding) :=
  match rules with
  | [] => Ok []
  | rule :: rules' =>
      bind (base.check rule parsed_html) (fun rule_findings =>
      bind (run_rules rules' parsed_html) (fun rest =>
      Ok (rule_findings ++ rest)))
  end.

Definition has_severity (v : string) (f : Finding) : bool :=
  String.eqb (SeverityLevel.value (severity f)) v.

Definition passed (findings : list Finding) : nat :=
  sum_1_for (has_severity "pass") findings.

Definition warnings (findings : list Finding) : nat :=
  sum_1_for (has_severity "warning") findings.

Definition failures (findings : list Finding) : nat :=
  sum_1_for (has_severity "fail") findings.

Definition total (findings : list Finding) : nat := length findings.

(** The score before rounding (100 = perfect, 0 = many failures). *)
Definition score_of (passed warnings total : nat) : float :=
  if (0 <? total)%nat then
    ((float_of_nat passed + (float_of_nat warnings * 0.5))
     / float_of_nat total * 100)%float
  else 100%float.

Definition score (findings : list Finding) : float :=
  score_of (passed findings) (warnings findings) (total findings).

(** Count issues by principle. *)
Definition principle_counts_init : gmap string nat :=
  <["Perceivable" := 0]> (<["Operable" := 0]> (<["Understandable" := 0]>
    (<["Robust" := 0]> ∅))).

Definition count_issue (principle_counts : gmap string nat) (finding : Finding)
    : gmap string nat :=
  if in_list (SeverityLevel.value (severity finding)) ["warning"; "fail"] then
    <[principle finding := default 0 (principle_counts !! principle finding) + 1]>
      principle_counts
  else principle_counts.

Definition principle_counts (findings : list Finding) : gmap string nat :=
  fold_left count_issue findings principle_counts_init.

(** [int((end_time - start_time).total_seconds() * 1000)] *)
Definition duration_ms (start_time end_time : datetime) : Z :=
  int_of_float (float_of_Z (end_time - start_time) / 1000000 * 1000)%float.

(** The response a completed scan returns. *)
Definition complete_response (scan_id url : string)
    (start_time end_time : datetime) (findings : list Finding) : ScanResponse :=
  let principle_counts := principle_counts findings in
  {| models.scan_id := scan_id;
     models.url := url;
     models.status := ScanStatus.COMPLETE;
     models.score := Some (round1 (score findings));
     models.findings := findings;
     models.total_checks := total findings;
     models.passed_checks := passed findings;
     models.warnings := warnings findings;
     models.failures := failures findings;
     models.created_at := start_time;
     models.completed_at := Some end_time;
     models.scan_duration_ms := Some (duration_ms start_time end_time);
     models.perceivable_issues := principle_counts !!! "Perceivable";
     models.operable_issues := principle_counts !!! "Operable";
     models.understandable_issues := principle_counts !!! "Understandable";
     models.robust_issues := principle_counts !!! "Robust" |}.

(** The row of a completed scan: the update of the record found by
    [scan_id]. *)
Definition complete_record (scan_record : database.ScanRecord)
    (start_time end_time : datetime) (findings : list Finding)
    : database.ScanRecord :=
  let principle_counts := principle_counts findings in
  {| database.scan_id := database.scan_id scan_record;
     database.url := database.url scan_record;
     database.status := ScanStatus.value ScanStatus.COMPLETE;
     database.score := Some (round1 (score findings));
     database.findings := Some findings;
     database.total_checks := total findings;
     database.passed_checks := passed findings;
     database.warnings := warnings findings;
     database.failures := failures findings;
     database.perceivable_issues := principle_counts !!! "Perceivable";
     database.operable_issues := principle_counts !!! "Operable";
     database.understandable_issues := principle_counts !!! "Understandable";
     database.robust_issues := principle_counts !!! "Robust";
     database.created_at := database.created_at scan_record;
     database.completed_at := Some end_time;
     database.scan_duration_ms := Some (duration_ms start_time end_time);
     database.error_message := database.error_message scan_record |}.

(** The row of a failed scan: status, message and completion time change. *)
Definition failed_record (scan_record : database.ScanRecord) (e : Exception)
    (now : datetime) : database.ScanRecord :=
  {| database.scan_id := database.scan_id scan_record;
     database.url := database.url scan_record;
     database.status := ScanStatus.value ScanStatus.FAILED;
     database.score := database.score scan_record;
     database.findings := database.findings scan_record;
     database.total_checks := database.total_checks scan_record;
     database.passed_checks := database.passed_checks scan_record;
     database.warnings := database.warnings scan_record;
     database.failures := database.failures scan_record;
     database.perceivable_issues := database.perceivable_issues scan_record;
     database.operable_issues := database.operable_issues scan_record;
     database.understandable_issues := database.understandable_issues scan_record;
     database.robust_issues := database.robust_issues scan_record;
     database.created_at := database.created_at scan_record;
     database.completed_at := Some now;
     database.scan_duration_ms := database.scan_duration_ms scan_record;
     database.error_message := Some (exc_str e) |}.

(** The body of the [try] up to the metrics: fetch, parse, run the rules. *)
Definition fetch_parse_check `{Runtime} (self : ScanEngine)
    (settings : config.Settings) (world : World) : Result (list Finding) :=
  bind (fetcher.fetch (fetcher self) settings (exchange world)) (fun html_content =>
  bind (parse html_content) (fun parsed_html =>
  run_rules (rules self) parsed_html)).

(** [ScanEngine.scan_url]: the table of scans before, the table after and
    what the call returns or raises. *)
Definition scan_url `{Runtime} (self : ScanEngine) (settings : config.Settings)
    (table : gmap string database.ScanRecord) (world : World) (url : string)
    : gmap string database.ScanRecord * Result ScanResponse :=
  let scan_id := slice_to 12 (uuid4 world) in
  let start_time := utcnow_start world in
  (* the [except] clause: mark the row, if there is one, and raise again *)
  let on_exception (table : gmap string database.ScanRecord) (e : Exception) :=
    (match table !! scan_id with
     | Some scan_record =>
         <[scan_id := failed_record scan_record e (utcnow_end world)]> table
     | None => table
     end, Raise e) in
  (* Create database record *)
  match database.add table
          (database.new_record scan_id url
             (ScanStatus.value ScanStatus.SCANNING) (utcnow_insert world)) with
  | Raise e => on_exception table e
  | Ok table =>
      match fetch_parse_check self settings world with
      | Raise e => on_exception table e
      | Ok findings =>
          let end_time := utcnow_end world in
          (* Update database record *)
          match table !! scan_id with
          | None =>
              on_exception table
                {| exc_type := "NoResultFound";
                   exc_str := "No row was found when one was required" |}
          | Some scan_record =>
              (<[scan_id := complete_record scan_record start_time end_time findings]>
                 table,
               Ok (complete_response scan_id url start_time end_time findings))
          end
      end
  end.

(** [ScanEngine.get_scan] *)
Definition get_scan (table : gmap string database.ScanRecord) (scan_id : string)
    : Result (option ScanResponse) :=
  match table !! scan_id with
  | None => Ok None
  | Some scan_record =>
      bind (ScanStatus.of_value (database.status scan_record)) (fun status =>
      Ok (Some
        {| models.scan_id := database.scan_id scan_record;
           models.url := database.url scan_record;
           models.status := status;
           models.score := database.score scan_record;
           models.findings := default [] (database.findings scan_record);
           models.total_checks := database.total_checks scan_record;
           models.passed_checks := database.passed_checks scan_record;
           models.warnings := database.warnings scan_record;
           models.failures := database.failures scan_record;
           models.created_at := database.created_at scan_record;
           models.completed_at := database.completed_at scan_record;
           models.scan_duration_ms := database.scan_duration_ms scan_record;
           models.perceivable_issues := database.perceivable_issues scan_record;
           models.operable_issues := database.operable_issues scan_record;
           models.understandable_issues := database.understandable_issues scan_record;
           models.robust_issues := database.robust_issues scan_record |}))
  end.

End engine.

(** ** Sample inputs *)

Module Sample.

(** A runtime to evaluate the model on concrete pages: the serialiser keeps
    the opening tag without its attributes, a set is listed in the order of
    [elements], and the parser reads its input as one text node. *)
Definition runtime : Runtime :=
  {| BeautifulSoup := fun html _ => Ok (document [NavigableString html]);
     decode := fun n => "<" +:+ name_of n +:+ ">";
     set_order := elements;
     set_order_perm := fun s => reflexivity (elements s) |}.

Definition page (contents : list Node) : ParsedHTML :=
  {| soup := document contents; raw_html := "" |}.

(** The empty page. *)
Definition empty : ParsedHTML := page [].

(** [<html lang="en"><head><title>Home</title></head>
     <body><h1>Welcome</h1></body></html>] *)
Definition clean : ParsedHTML :=
  page [Tag "html" {["lang" := "en"]}
          [Tag "head" ∅ [Tag "title" ∅ [NavigableString "Home"]];
           Tag "body" ∅ [Tag "h1" ∅ [NavigableString "Welcome"]]]].

(** [<img src="a.png"><img src="b.png" alt=""> ] *)
Definition two_images : ParsedHTML :=
  page [Tag "img" {["src" := "a.png"]} [];
        Tag "img" (<["alt" := ""]> {["src" := "b.png"]}) []].

(** [<p id="x"></p><div id="x"></div><span id="x"></span><b id="y"></b>] *)
Definition shared_id : ParsedHTML :=
  page [Tag "p" {["id" := "x"]} [];
        Tag "div" {["id" := "x"]} [];
        Tag "span" {["id" := "x"]} [];
        Tag "b" {["id" := "y"]} []].

(** [<a href="#">Click here</a>] *)
Definition click_here : ParsedHTML :=
  page [Tag "a" {["href" := "#"]} [NavigableString "Click here"]].

(** [<a href="#" aria-label="Click here"></a>] *)
Definition click_here_label : ParsedHTML :=
  page [Tag "a" (<["aria-label" := "Click here"]> {["href" := "#"]}) []].

(** [<a href="/more">More about us</a>] *)
Definition more_about_us : ParsedHTML :=
  page [Tag "a" {["href" := "/more"]} [NavigableString "More about us"]].

(** [<h1>Guide</h1><h3>Details</h3>] *)
Definition skipped_heading : ParsedHTML :=
  page [Tag "h1" ∅ [NavigableString "Guide"];
        Tag "h3" ∅ [NavigableString "Details"]].

(** [<h1>Guide</h1><h2>Part</h2><h3>Details</h3>] *)
Definition ordered_headings : ParsedHTML :=
  page [Tag "h1" ∅ [NavigableString "Guide"];
        Tag "h2" ∅ [NavigableString "Part"];
        Tag "h3" ∅ [NavigableString "Details"]].

(** [<html><body></body></html>] *)
Definition no_lang : ParsedHTML :=
  page [Tag "html" ∅ [Tag "body" ∅ []]].

(** A response of one byte that declares an HTML content type. *)
Definition small_response : fetcher.Exchange :=
  fetcher.Response (Some "text/html; charset=utf-8") [Byte.x61] "a".


Definition world (exchange : fetcher.Exchange) : engine.World :=
  {| engine.uuid4 := "3f2b8c1e-9d4a-4c6b-8e2f-1a7d5c9b0e34";
     engine.utcnow_start := 1000000%Z;
     engine.utcnow_insert := 1000500%Z;
     engine.utcnow_end := 2000000%Z;
     engine.exchange := exchange |}.

End Sample.

(** ** What the specification says, in its own words *)

Module Spec.

(** [((passed + 0.5*warnings) / total) * 100], as a rational number. *)
Definition exact_score (passed warnings total : nat) : Q :=
  ((inject_Z (Z.of_nat passed) + (1 # 2) * inject_Z (Z.of_nat warnings))
   / inject_Z (Z.of_nat total) * 100)%Q.

(** A rational rounded to one decimal place, as a number of tenths. *)
Definition nearest_tenth (q : Q) : Z :=
  div_half_even (Qnum (q * 10)) (Z.pos (Qden (q * 10))).

(** The float written with one decimal, [n / 10]: the float nearest to it. *)
Definition decimal1 (n : Z) : float := (float_of_Z n / 10)%float.

(** How often a value occurs in a list of ids. *)
Definition occurrences (x : string) (ids : list string) : nat :=
  length (List.filter (String.eqb x) ids).

(** The number of distinct id values that occur more than once. *)
Definition distinct_duplicated (ids : list string) : nat :=
  length (List.filter (fun x => (2 <=? occurrences x ids)%nat) (remove_dups ids)).

(** The findings of one severity. *)
Definition same_severity (a b : SeverityLevel.t) : bool :=
  match a, b with
  | SeverityLevel.PASS, SeverityLevel.PASS
  | SeverityLevel.WARNING, SeverityLevel.WARNING
  | SeverityLevel.FAIL, SeverityLevel.FAIL => true
  | _, _ => false
  end.

Definition with_severity (s : SeverityLevel.t) (findings : list Finding)
    : list Finding :=
  List.filter (fun f => same_severity (severity f) s) findings.

(** The score a scan stores: [round(score, 1)]. *)
Definition stored_score (passed warnings total : nat) : float :=
  round1 (engine.score_of passed warnings total).

(** The stored score is the exact score rounded to one decimal place, and
    the exact score is no tie between two decimals. *)
Definition score_rounds_exact (passed warnings total : nat) : Prop :=
  let exact := exact_score passed warnings total in
  stored_score passed warnings total = decimal1 (nearest_tenth exact)
  /\ (Qabs (exact - inject_Z (nearest_tenth exact) / 10) < 1 # 20)%Q.

(** The stored score lies in [0, 100] and is 100 exactly when every finding
    passed. *)
Definition score_in_range (passed warnings total : nat) : Prop :=
  (0 <=? stored_score passed warnings total)%float = true
  /\ (stored_score passed warnings total <=? 100)%float = true
  /\ (stored_score passed warnings total = 100%float <-> passed = total).

(** A finding that is an issue: a Warning or a Fail. *)
Definition is_issue (f : Finding) : bool :=
  match severity f with
  | SeverityLevel.PASS => false
  | _ => true
  end.

(** The counter of a principle: what [principle_counts.get(k, 0)] reads. *)
Definition bucket (m : gmap string nat) (k : string) : nat :=
  default 0%nat (m !! k).

(** The four principles of the per-principle counters. *)
Definition principles : list string :=
  ["Perceivable"; "Operable"; "Understandable"; "Robust"].

(** The violations each rule of the catalogue finds on a page, in catalogue
    order: the offenders its loop collects or, for a rule that gives a single
    verdict, 1 when that verdict is an issue (for the H1 rule with several
    headings, their number). *)
Section Violations.
Context `{Runtime}.

Definition html_lang_violations (parsed_html : ParsedHTML) : nat :=
  match html_tag parsed_html with
  | None => 1
  | Some html_tag => if truthy_opt (get (node html_tag) "lang") then 0 else 1
  end.

Definition page_title_violations (parsed_html : ParsedHTML) : nat :=
  match title parsed_html with
  | None => 1
  | Some title =>
      if truthy title && negb (String.length (strip title) =? 0)%nat
         && negb (String.length title <? 3)%nat
      then 0 else 1
  end.

Definition heading_violations (parsed_html : ParsedHTML) : nat :=
  match headings parsed_html with
  | [] => 1
  | _ :: _ =>
      match mapM HeadingHierarchyRule.level_of (headings parsed_html) with
      | Ok levels =>
          length (HeadingHierarchyRule.skipped_from 0 0
                    (combine levels (headings parsed_html)))
      | Raise _ => 0
      end
  end.

Definition h1_violations (parsed_html : ParsedHTML) : nat :=
  match find_all parsed_html "h1" [] with
  | [] => 1
  | [_] => 0
  | h1_elements => length h1_elements
  end.


(** What a rule may return: exactly one Pass finding when it found no
    violation, and otherwise one or two findings, none of them a Pass. *)
Definition verdict (found : nat) (findings : list Finding) : Prop :=
  findings <> []
  /\ (found = 0%nat -> exists f, findings = [f] /\ severity f = SeverityLevel.PASS)
  /\ (found <> 0%nat -> Forall (fun f => severity f <> SeverityLevel.PASS) findings).

(** What [check] of a rule with attributes [m] may return when it found
    [found] violations: it raises nothing, gives its verdict in at most
    [most] findings, and files every finding under its own principle. *)
Definition reports (m : base.Metadata) (found most : nat)
    (result : Result (list Finding)) : Prop :=
  exists findings,
    result = Ok findings
    /\ verdict found findings
    /\ (length findings <= most)%nat
    /\ Forall (fun f => principle f = base.principle m) findings.

End Violations.

End Spec.

(** ** [models.py]: the request *)

Module ScanRequest.



End ScanRequest.

(** ** [main.py]: the endpoints *)

Module main.

(** [HTTPException(status_code=..., detail=...)] *)
Record HTTPException := { status_code : Z; detail : string }.

(** What an endpoint comes to: the value it returns or the
    [HTTPException] it raises. *)
Inductive Reply (A : Type) : Type :=
| Returns (a : A)
| Aborts (exc : HTTPException).
Arguments Returns {A} a.
Arguments Aborts {A} exc.

(** The body of [create_scan] (POST /api/scan/), for a request that passed
    validation and the rate limiter; [url] is [str(scan_request.url)]. *)
Definition create_scan `{Runtime} (scan_engine : engine.ScanEngine)
    (settings : config.Settings) (table : gmap string database.ScanRecord)
    (world : engine.World) (url : string)
    : gmap string database.ScanRecord * Reply ScanResponse :=
  match engine.scan_url scan_engine settings table world url with
  | (table, Ok scan_result) => (table, Returns scan_result)
  | (table, Raise e) =>
      (table,
       Aborts {| status_code := 500;
                 detail := "Scan failed: " +:+ exc_str e |})
  end.

(** [get_scan] (GET /api/scan/{scan_id}) *)
Definition get_scan (table : gmap string database.ScanRecord)
    (scan_id : string) : Reply ScanResponse :=
  match engine.get_scan table scan_id with
  | Ok (Some scan_result) => Returns scan_result
  | Ok None =>
      (* raised in the [try], and raised again by [except HTTPException] *)
      Aborts {| status_code := 404; detail := "Scan not found" |}
  | Raise _ =>
      Aborts {| status_code := 500; detail := "Failed to retrieve scan" |}
  end.

(** The JSON body of an error response and its HTTP status. *)
Record JSONResponse := {
  response_status : Z;
  content_error : string;
  content_status_code : Z
}.

(** [http_exception_handler] *)
Definition http_exception_handler (exc : HTTPException) : JSONResponse :=
  {| response_status := status_code exc;
     content_error := detail exc;
     content_status_code := status_code exc |}.

End main.

(** ** More sample inputs *)

Module Cases.

(** A rule whose [check] raises. *)
Definition faulty_rule : base.WCAGRule :=
  {| base.metadata :=
       {| base.rule_code := "FAULTY";
          base.wcag_reference := "0.0.0";
          base.wcag_level := WCAGLevel.AA;
          base.principle := "Robust" |};
     base.check := fun _ => Raise (ValueError "rule failed") |}.

(** An engine whose catalogue ends with the faulty rule. *)
Definition faulty_engine `{Runtime} : engine.ScanEngine :=
  {| engine.fetcher := fetcher.init config.settings;
     engine.rules := [ImageAltTextRule.rule; faulty_rule] |}.

(** [<h2>Part</h2><h4>Details</h4>] *)
Definition subheadings_only : ParsedHTML :=
  Sample.page [Tag "h2" ∅ [NavigableString "Part"];
               Tag "h4" ∅ [NavigableString "Details"]].

(** [<title> </title><a href="/a"> </a><a href="/b">More</a>
     <a href="/c">Prices</a>] *)
Definition blank_title : ParsedHTML :=
  Sample.page [Tag "title" ∅ [NavigableString " "];
               Tag "a" {["href" := "/a"]} [NavigableString " "];
               Tag "a" {["href" := "/b"]} [NavigableString "More"];
               Tag "a" {["href" := "/c"]} [NavigableString "Prices"]].

(** [<input type="submit"><input type="Button"><input type="reset" value="">] *)
Definition submit_only : ParsedHTML :=
  Sample.page [Tag "input" {["type" := "submit"]} [];
               Tag "input" {["type" := "Button"]} [];
               Tag "input" (<["value" := ""]> {["type" := "reset"]}) []].

(** [<img src="a.png"><input name="q"><button></button><a href="#"></a>
     <p id="x"></p><p id="x" role="paragraph"></p>] *)
Definition worst : ParsedHTML :=
  Sample.page [Tag "img" {["src" := "a.png"]} [];
               Tag "input" {["name" := "q"]} [];
               Tag "button" ∅ [];
               Tag "a" {["href" := "#"]} [];
               Tag "p" {["id" := "x"]} [];
               Tag "p" (<["role" := "paragraph"]> {["id" := "x"]}) []].

(** A completed scan. *)
Definition earlier_scan : database.ScanRecord :=
  {| database.scan_id := "3f2b8c1e-9d4";
     database.url := "https://example.org";
     database.status := "complete";
     database.score := Some 100%float;
     database.findings := Some [];
     database.total_checks := 0;
     database.passed_checks := 0;
     database.warnings := 0;
     database.failures := 0;
     database.perceivable_issues := 0;
     database.operable_issues := 0;
     database.understandable_issues := 0;
     database.robust_issues := 0;
     database.created_at := 500%Z;
     database.completed_at := Some 900%Z;
     database.scan_duration_ms := Some 0%Z;
     database.error_message := None |}.

(** A table with that scan under the id the sample world draws. *)
Definition busy_table : gmap string database.ScanRecord :=
  {[ "3f2b8c1e-9d4" := earlier_scan ]}.

End Cases.

(** ** What the code is expected to keep *)

Module Expected.



(** The level of a heading, from the name of its tag. *)
Definition level (h : Element) : nat :=
  let name := name_of (node h) in
  if String.eqb name "h1" then 1
  else if String.eqb name "h2" then 2
  else if String.eqb name "h3" then 3
  else if String.eqb name "h4" then 4
  else if String.eqb name "h5" then 5
  else if String.eqb name "h6" then 6
  else 0.

(** Headings that start at level 1 and never go down more than one level
    at a time. *)
Definition well_nested (levels : list nat) : Prop :=
  levels !! 0%nat = Some 1%nat
  /\ forall i a b,
       levels !! i = Some a -> levels !! S i = Some b -> (b <= a + 1)%nat.

(** The places where a list of levels is not well nested: a first level
    other than 1, and every level more than one below the one before. *)
Fixpoint jumps (prev_level : nat) (levels : list nat) : nat :=
  match levels with
  | [] => 0
  | level :: levels' =>
      (if (prev_level + 1 <? level)%nat then 1 else 0) + jumps level levels'
  end.

Definition issues (levels : list nat) : nat :=
  match levels with
  | [] => 0
  | level :: levels' => (if (level =? 1)%nat then 0 else 1) + jumps level levels'
  end.

(** A finding that carries the attributes of its rule. *)
Definition carries (m : base.Metadata) (f : Finding) : Prop :=
  rule_code f = base.rule_code m
  /\ wcag_reference f = base.wcag_reference m
  /\ wcag_level f = base.wcag_level m
  /\ principle f = base.principle m.

(** A finding as a rule of the catalogue makes it: it carries the
    attributes of the rule, it counts at least one occurrence, and a Pass
    counts exactly one and shows no element. *)
Definition well_formed (m : base.Metadata) (f : Finding) : Prop :=
  carries m f
  /\ (1 <= count f)%nat
  /\ (severity f = SeverityLevel.PASS -> count f = 1%nat /\ element f = None).

(** The rule codes of the catalogue, in its order; the link rule may give
    one finding or two. *)
Definition codes (link_findings : nat) : list string :=
  ["IMG_ALT_MISSING"; "HTML_LANG_MISSING"; "PAGE_TITLE_MISSING";
   "FORM_LABEL_MISSING"; "BUTTON_NAME_MISSING"]
  ++ repeat "LINK_TEXT_EMPTY" link_findings
  ++ ["HEADING_SKIP_LEVEL"; "H1_MISSING_OR_MULTIPLE"; "DUPLICATE_ID";
      "ARIA_ROLE_INVALID"].

(** A row as a finished scan leaves it. *)
Definition row_ok (record : database.ScanRecord) : Prop :=
  (database.status record = "complete"
   /\ (exists s, database.score record = Some s)
   /\ (exists findings,
         database.findings record = Some findings
         /\ database.total_checks record = length findings
         /\ (database.passed_checks record + database.warnings record
             + database.failures record = length findings)%nat)
   /\ database.error_message record = None)
  \/ (database.status record = "failed"
      /\ exists message, database.error_message record = Some message).

(** A table in which every row is filed under its own id and is as a
    finished scan leaves it. *)
Definition table_ok (table : gmap string database.ScanRecord) : Prop :=
  forall scan_id record,
    table !! scan_id = Some record ->
    database.scan_id record = scan_id /\ row_ok record.

(** The response [get_scan] builds from a row. *)
Definition response_of (status : ScanStatus.t) (record : database.ScanRecord)
    : ScanResponse :=
  {| models.scan_id := database.scan_id record;
     models.url := database.url record;
     models.status := status;
     models.score := database.score record;
     models.findings := default [] (database.findings record);
     models.total_checks := database.total_checks record;
     models.passed_checks := database.passed_checks record;
     models.warnings := database.warnings record;
     models.failures := database.failures record;
     models.created_at := database.created_at record;
     models.completed_at := database.completed_at record;
     models.scan_duration_ms := database.scan_duration_ms record;
     models.perceivable_issues := database.perceivable_issues record;
     models.operable_issues := database.operable_issues record;
     models.understandable_issues := database.understandable_issues record;
     models.robust_issues := database.robust_issues record |}.

(** A response with another creation time. *)
Definition with_created_at (t : datetime) (r : ScanResponse) : ScanResponse :=
  {| models.scan_id := models.scan_id r;
     models.url := models.url r;
     models.status := models.status r;
     models.score := models.score r;
     models.findings := models.findings r;
     models.total_checks := models.total_checks r;
     models.passed_checks := models.passed_checks r;
     models.warnings := models.warnings r;
     models.failures := models.failures r;
     models.created_at := t;
     models.completed_at := models.completed_at r;
     models.scan_duration_ms := models.scan_duration_ms r;
     models.perceivable_issues := models.perceivable_issues r;
     models.operable_issues := models.operable_issues r;
     models.understandable_issues := models.understandable_issues r;
     models.robust_issues := models.robust_issues r |}.

End Expected.

(** * Properties *)

(** ** The aggregator *)

Section Aggregator.

Lemma severity_has_one (f : Finding) :
  ((if engine.has_severity "pass" f then 1 else 0)
   + (if engine.has_severity "warning" f then 1 else 0)
   + (if engine.has_severity "fail" f then 1 else 0) = 1)%nat.
Proof. unfold engine.has_severity. destruct (severity f); reflexivity. Qed.

Lemma counts_partition (findings : list Finding) :
  (engine.passed findings + engine.warnings findings + engine.failures findings
   = engine.total findings)%nat.
Proof.
  unfold engine.passed, engine.warnings, engine.failures, engine.total.
  induction findings as [|f fs IH]; simpl; [reflexivity|].
  pose proof (severity_has_one f). lia.
Qed.

Lemma issues_count (findings : list Finding) :
  sum_1_for Spec.is_issue findings
  = (engine.warnings findings + engine.failures findings)%nat.
Proof.
  unfold engine.warnings, engine.failures.
  induction findings as [|f fs IH]; simpl; [reflexivity|].
  rewrite IH. unfold Spec.is_issue, engine.has_severity.
  destruct (severity f); simpl; lia.
Qed.

Lemma is_issue_in_list (f : Finding) :
  in_list (SeverityLevel.value (severity f)) ["warning"; "fail"] = Spec.is_issue f.
Proof. unfold Spec.is_issue. destruct (severity f); reflexivity. Qed.

Lemma bucket_count_issue m f k :
  Spec.bucket (engine.count_issue m f) k
  = (Spec.bucket m k
     + if Spec.is_issue f && String.eqb (principle f) k then 1 else 0)%nat.
Proof.
  unfold engine.count_issue, Spec.bucket. rewrite is_issue_in_list.
  destruct (Spec.is_issue f); simpl; [|lia].
  destruct (String.eqb_spec (principle f) k) as [->|Hne].
  - rewrite lookup_insert_eq. reflexivity.
  - rewrite lookup_insert_ne by exact Hne. simpl. lia.
Qed.

Lemma bucket_fold fs : forall m k,
  Spec.bucket (fold_left engine.count_issue fs m) k
  = (Spec.bucket m k
     + sum_1_for (fun f => Spec.is_issue f && String.eqb (principle f) k) fs)%nat.
Proof.
  induction fs as [|f fs IH]; intros m k; simpl; [lia|].
  rewrite IH, bucket_count_issue. lia.
Qed.

Lemma lookup_total_bucket (m : gmap string nat) k : m !!! k = Spec.bucket m k.
Proof. unfold Spec.bucket. rewrite lookup_total_alt. reflexivity. Qed.

(** Each counter counts the issues filed under its principle. *)
Lemma principle_counts_spec findings k :
  k ∈ Spec.principles ->
  engine.principle_counts findings !!! k
  = sum_1_for (fun f => Spec.is_issue f && String.eqb (principle f) k) findings.
Proof.
  intros Hk. rewrite lookup_total_bucket. unfold engine.principle_counts.
  rewrite bucket_fold.
  assert (Spec.bucket engine.principle_counts_init k = 0%nat) as ->; [|reflexivity].
  unfold Spec.principles in Hk.
  repeat (apply elem_of_cons in Hk as [-> | Hk]; [reflexivity|]).
  apply elem_of_nil in Hk. contradiction.
Qed.

Lemma issues_by_principle findings :
  Forall (fun f => principle f ∈ Spec.principles) findings ->
  (sum_1_for (fun f => Spec.is_issue f && String.eqb (principle f) "Perceivable") findings
   + sum_1_for (fun f => Spec.is_issue f && String.eqb (principle f) "Operable") findings
   + sum_1_for (fun f => Spec.is_issue f && String.eqb (principle f) "Understandable") findings
   + sum_1_for (fun f => Spec.is_issue f && String.eqb (principle f) "Robust") findings
   = sum_1_for Spec.is_issue findings)%nat.
Proof.
  induction 1 as [|f fs Hf _ IH]; simpl; [reflexivity|].
  rewrite <- IH. clear IH.
  destruct (Spec.is_issue f); simpl; [|lia].
  unfold Spec.principles in Hf.
  repeat (apply elem_of_cons in Hf as [-> | Hf]; [simpl; lia|]).
  apply elem_of_nil in Hf. contradiction.
Qed.

End Aggregator.

(** ** The Python primitives on examples *)

Example strip_lower_example : lower (strip "  Click Here  ") = "click here".
Proof. reflexivity. Qed.

Example contains_example :
  contains "text/html" "text/html; charset=utf-8" = true
  /\ contains "text/html" "application/pdf" = false.
Proof. split; reflexivity. Qed.

Example round1_example :
  round1 (engine.score_of 3 1 11) = Spec.decimal1 318
  /\ round1 (engine.score_of 6 2 10) = 70%float.
Proof. split; reflexivity. Qed.

Example format_1f_example :
  format_1f (float_of_Z 5767168 / 1024 / 1024)%float = "5.5".
Proof. reflexivity. Qed.

Example duration_ms_example : engine.duration_ms 1000000%Z 2001500%Z = 1001%Z.
Proof. reflexivity. Qed.

(** ** The rules *)

Section Rules.
Context `{Runtime}.

(** Closes [Spec.reports] once [check] has been reduced to its branch. *)
Ltac verdict :=
  eexists; split; [reflexivity|];
  split; [split; [discriminate|]; split;
          [ intros Hv; first [ discriminate Hv | exfalso; simpl in Hv; lia
                             | eexists; split; reflexivity ]
          | intros Hv; first [ exfalso; apply Hv; reflexivity
                             | exfalso; simpl in Hv; lia
                             | repeat constructor; simpl; discriminate ] ]
         | split; [simpl; lia | repeat constructor] ].

Lemma image_alt_reports doc :
  Spec.reports ImageAltTextRule.metadata
    (length (ImageAltTextRule.missing_alt doc)) 1 (ImageAltTextRule.check doc).
Proof.
  unfold ImageAltTextRule.check.
  destruct (ImageAltTextRule.missing_alt doc); verdict.
Qed.

Lemma html_lang_reports doc :
  Spec.reports HTMLLangAttributeRule.metadata
    (Spec.html_lang_violations doc) 1 (HTMLLangAttributeRule.check doc).
Proof.
  unfold HTMLLangAttributeRule.check, Spec.html_lang_violations.
  destruct (html_tag doc) as [t|]; [|verdict].
  destruct (truthy_opt (get (node t) "lang")); simpl; verdict.
Qed.

Lemma page_title_reports doc :
  Spec.reports PageTitleRule.metadata
    (Spec.page_title_violations doc) 1 (PageTitleRule.check doc).
Proof.
  unfold PageTitleRule.check, Spec.page_title_violations.
  destruct (title doc) as [t|]; simpl; [|verdict].
  destruct (truthy t); simpl; [|verdict].
  destruct (String.length (strip t) =? 0)%nat; simpl; [verdict|].
  destruct (String.length t <? 3)%nat; simpl; verdict.
Qed.

Lemma form_label_reports doc :
  Spec.reports FormLabelRule.metadata
    (length (FormLabelRule.unlabeled doc)) 1 (FormLabelRule.check doc).
Proof.
  unfold FormLabelRule.check.
  destruct (FormLabelRule.unlabeled doc); [|verdict].
  destruct (0 <? length (inputs doc))%nat; verdict.
Qed.

Lemma button_name_reports doc :
  Spec.reports ButtonAccessibleNameRule.metadata
    (length (ButtonAccessibleNameRule.unnamed doc)) 1
    (ButtonAccessibleNameRule.check doc).
Proof.
  unfold ButtonAccessibleNameRule.check.
  destruct (ButtonAccessibleNameRule.unnamed doc); [|verdict].
  destruct (0 <? length (buttons doc))%nat; verdict.
Qed.

Lemma link_text_reports doc :
  Spec.reports LinkTextRule.metadata
    (length (LinkTextRule.empty_links doc) + length (LinkTextRule.vague_links doc)) 2
    (LinkTextRule.check doc).
Proof.
  unfold LinkTextRule.check.
  destruct (LinkTextRule.empty_links doc), (LinkTextRule.vague_links doc);
    simpl; try verdict.
  destruct (0 <? length (links doc))%nat; verdict.
Qed.

Lemma level_of_heading h :
  in_list (name_of (node h)) ["h1"; "h2"; "h3"; "h4"; "h5"; "h6"] = true ->
  exists level, HeadingHierarchyRule.level_of h = Ok level.
Proof.
  unfold in_list, HeadingHierarchyRule.level_of. simpl.
  intros Hn.
  repeat (apply orb_prop in Hn as [Hn | Hn];
          [apply String.eqb_eq in Hn; rewrite Hn; eexists; reflexivity|]).
  discriminate Hn.
Qed.

(** Reading the level of a heading never raises: [find_all] only returns
    tags named h1 to h6. *)
Lemma heading_levels doc :
  exists levels,
    mapM HeadingHierarchyRule.level_of (headings doc) = Ok levels.
Proof.
  unfold headings, find_all_in.
  induction (descendants (soup doc)) as [|e l [levels IH]]; simpl.
  - eexists; reflexivity.
  - destruct (matches _ _ (node e)) eqn:Hm; [|eexists; exact IH].
    unfold matches in Hm.
    apply andb_prop in Hm as [Hm _]. apply andb_prop in Hm as [_ Hm].
    destruct (level_of_heading e Hm) as [level Hl].
    simpl. rewrite Hl, IH. simpl. eexists; reflexivity.
Qed.

Lemma heading_reports doc :
  Spec.reports HeadingHierarchyRule.metadata
    (Spec.heading_violations doc) 1 (HeadingHierarchyRule.check doc).
Proof.
  unfold HeadingHierarchyRule.check, Spec.heading_violations.
  destruct (heading_levels doc) as [levels Hl].
  destruct (headings doc) as [|h hs] eqn:Hh; [verdict|].
  rewrite Hl. simpl bind.
  destruct (HeadingHierarchyRule.skipped_from 0 0 (combine levels (h :: hs)));
    verdict.
Qed.

Lemma h1_reports doc :
  Spec.reports H1ExistsRule.metadata
    (Spec.h1_violations doc) 1 (H1ExistsRule.check doc).
Proof.
  unfold H1ExistsRule.check, Spec.h1_violations.
  destruct (find_all doc "h1" []) as [|h1 [|h1' l]]; verdict.
Qed.

Lemma duplicate_id_reports doc :
  Spec.reports DuplicateIDRule.metadata
    (size (DuplicateIDRule.duplicates (get_all_ids doc))) 1
    (DuplicateIDRule.check doc).
Proof.
  unfold DuplicateIDRule.check.
  destruct (size (DuplicateIDRule.duplicates (get_all_ids doc))) as [|n];
    simpl; [|verdict].
  destruct (0 <? length (get_all_ids doc))%nat; verdict.
Qed.

Lemma aria_role_reports doc :
  Spec.reports ARIARoleValidRule.metadata
    (length (ARIARoleValidRule.invalid_roles doc)) 1
    (ARIARoleValidRule.check doc).
Proof.
  unfold ARIARoleValidRule.check.
  destruct (ARIARoleValidRule.invalid_roles doc); [|verdict].
  destruct (0 <? length (find_all_in (soup doc) None [("role", Present)]))%nat;
    verdict.
Qed.

End Rules.

(** ** The catalogue *)

Section Catalogue.
Context `{Runtime}.

Lemma catalogue_size : length rules.ALL_RULES = 10%nat.
Proof. reflexivity. Qed.

Lemma reports_one m found result :
  Spec.reports m found 1 result ->
  base.principle m ∈ Spec.principles ->
  exists f, result = Ok [f] /\ principle f ∈ Spec.principles.
Proof.
  intros (fs & -> & (Hne & _) & Hlen & Hp) Hm.
  destruct fs as [|f [|f' fs]]; [contradiction| |simpl in Hlen; lia].
  exists f. split; [reflexivity|].
  apply Forall_inv in Hp. rewrite Hp. exact Hm.
Qed.

Lemma reports_two m found result :
  Spec.reports m found 2 result ->
  base.principle m ∈ Spec.principles ->
  exists fs, result = Ok fs /\ (length fs = 1 \/ length fs = 2)%nat
             /\ Forall (fun f => principle f ∈ Spec.principles) fs.
Proof.
  intros (fs & -> & (Hne & _) & Hlen & Hp) Hm.
  exists fs. split; [reflexivity|]. split.
  - destruct fs as [|f [|f' fs]]; [contradiction|left; reflexivity|].
    right. simpl in *. lia.
  - eapply Forall_impl; [exact Hp|]. intros f ->. exact Hm.
Qed.

Ltac principle_known := unfold Spec.principles; simpl; repeat constructor.

(** The ten rules never raise, and return ten or eleven findings between
    them, each under one of the four principles. *)
Lemma run_catalogue doc :
  exists findings,
    engine.run_rules rules.ALL_RULES doc = Ok findings
    /\ (length findings = 10 \/ length findings = 11)%nat
    /\ Forall (fun f => principle f ∈ Spec.principles) findings.
Proof.
  destruct (reports_one _ _ _ (image_alt_reports doc)) as (f1 & E1 & P1);
    [principle_known|].
  destruct (reports_one _ _ _ (html_lang_reports doc)) as (f2 & E2 & P2);
    [principle_known|].
  destruct (reports_one _ _ _ (page_title_reports doc)) as (f3 & E3 & P3);
    [principle_known|].
  destruct (reports_one _ _ _ (form_label_reports doc)) as (f4 & E4 & P4);
    [principle_known|].
  destruct (reports_one _ _ _ (button_name_reports doc)) as (f5 & E5 & P5);
    [principle_known|].
  destruct (reports_two _ _ _ (link_text_reports doc)) as (l6 & E6 & L6 & P6);
    [principle_known|].
  destruct (reports_one _ _ _ (heading_reports doc)) as (f7 & E7 & P7);
    [principle_known|].
  destruct (reports_one _ _ _ (h1_reports doc)) as (f8 & E8 & P8);
    [principle_known|].
  destruct (reports_one _ _ _ (duplicate_id_reports doc)) as (f9 & E9 & P9);
    [principle_known|].
  destruct (reports_one _ _ _ (aria_role_reports doc)) as (f10 & E10 & P10);
    [principle_known|].
  exists ([f1; f2; f3; f4; f5] ++ l6 ++ [f7; f8; f9; f10]).
  split; [|split].
  - unfold rules.ALL_RULES, engine.run_rules. simpl base.check.
    rewrite E1, E2, E3, E4, E5, E6, E7, E8, E9, E10. reflexivity.
  - rewrite !length_app. simpl. lia.
  - repeat (apply Forall_cons; split; [assumption|]).
    apply Forall_app. split; [assumption|].
    repeat (apply Forall_cons; split; [assumption|]). constructor.
Qed.

End Catalogue.

(** ** The score *)

Ltac float_differs E :=
  apply (f_equal Prim2SF) in E; vm_compute in E; discriminate E.

Ltac score_goal :=
  lazymatch goal with
  | |- @eq float _ _ -> _ =>
      first [ intros _; reflexivity
            | let E := fresh "E" in intro E; exfalso; float_differs E ]
  | |- @eq nat _ _ -> _ =>
      first [ intros _; vm_compute; reflexivity
            | let E := fresh "E" in intro E; exfalso; lia ]
  | |- _ => vm_compute; reflexivity
  end.

(** Every split of ten or eleven findings into passes, warnings and
    failures, one by one. *)
Ltac each_split p w :=
  do 12 (destruct p as [|p];
         [ do 12 (destruct w as [|w];
                  [ first [ exfalso; lia | repeat split; score_goal ] | ]);
           exfalso; lia
         | ]);
  exfalso; lia.

Lemma score_rounds_exact_catalogue p w t :
  (t = 10 \/ t = 11)%nat -> (p + w <= t)%nat -> Spec.score_rounds_exact p w t.
Proof.
  unfold Spec.score_rounds_exact, Spec.stored_score.
  intros [-> | ->] Hle; each_split p w.
Qed.

Lemma score_in_range_catalogue p w t :
  (t = 10 \/ t = 11)%nat -> (p + w <= t)%nat -> Spec.score_in_range p w t.
Proof.
  unfold Spec.score_in_range, Spec.stored_score.
  intros [-> | ->] Hle; each_split p w.
Qed.

(** ** Counters and score of a scan *)

Lemma count_by_severity findings :
  engine.passed findings = length (Spec.with_severity SeverityLevel.PASS findings)
  /\ engine.warnings findings
     = length (Spec.with_severity SeverityLevel.WARNING findings)
  /\ engine.failures findings
     = length (Spec.with_severity SeverityLevel.FAIL findings).
Proof.
  unfold engine.passed, engine.warnings, engine.failures, Spec.with_severity.
  induction findings as [|f fs (IHp & IHw & IHf)]; simpl; [auto|].
  rewrite IHp, IHw, IHf. unfold engine.has_severity.
  destruct (severity f); simpl; auto.
Qed.

Lemma score_of_no_findings findings :
  engine.total findings = 0%nat -> round1 (engine.score findings) = 100%float.
Proof.
  unfold engine.total. intros Hl. apply nil_length_inv in Hl. subst findings.
  reflexivity.
Qed.

(** C5. For every list of findings, the response of a completed scan has
    [total_checks] equal to the number of findings and
    [passed_checks + warnings + failures] equal to [total_checks]: the three
    counters count the findings of severity Pass, Warning and Fail, and every
    finding has exactly one of the three. *)
Theorem counters_add_up (scan_id url : string) (start_time end_time : datetime)
    (findings : list Finding) :
  let response :=
    engine.complete_response scan_id url start_time end_time findings in
  total_checks response = length (models.findings response)
  /\ (passed_checks response + warnings response + failures response
      = total_checks response)%nat
  /\ passed_checks response
     = length (Spec.with_severity SeverityLevel.PASS (models.findings response))
  /\ warnings response
     = length (Spec.with_severity SeverityLevel.WARNING (models.findings response))
  /\ failures response
     = length (Spec.with_severity SeverityLevel.FAIL (models.findings response))
  /\ Forall (fun f => severity f = SeverityLevel.PASS
                      \/ severity f = SeverityLevel.WARNING
                      \/ severity f = SeverityLevel.FAIL)
            (models.findings response).
Proof.
  simpl. split; [reflexivity|].
  split; [apply counts_partition|].
  destruct (count_by_severity findings) as (Hp & Hw & Hf).
  repeat split; try assumption.
  apply Forall_forall. intros f _. destruct (severity f); auto.
Qed.

Section Scans.
Context `{Runtime}.

(** Reads the fields of a response. *)
Ltac proj :=
  cbn [models.score models.passed_checks models.warnings models.failures
       models.total_checks models.findings models.perceivable_issues
       models.operable_issues models.understandable_issues
       models.robust_issues].

(** C1. The score of a scan: 100.0 when there is no finding; otherwise, for
    the findings the catalogue returns on any page, the float written with
    one decimal that is nearest to [((passed + 0.5*warnings) / total) * 100],
    where passed, warnings and failures count the findings by severity.  The
    exact value is never half-way between two such decimals, so every way
    of rounding to the nearest gives the same score. *)
Theorem score_formula :
  (forall scan_id url start_time end_time findings,
     engine.total findings = 0%nat ->
     score (engine.complete_response scan_id url start_time end_time findings)
     = Some 100%float)
  /\ forall parsed_html,
       exists findings,
         engine.run_rules rules.ALL_RULES parsed_html = Ok findings
         /\ forall scan_id url start_time end_time,
              let response :=
                engine.complete_response scan_id url start_time end_time findings in
              let exact :=
                Spec.exact_score (passed_checks response) (warnings response)
                                 (total_checks response) in
              passed_checks response
              = length (Spec.with_severity SeverityLevel.PASS findings)
              /\ warnings response
                 = length (Spec.with_severity SeverityLevel.WARNING findings)
              /\ failures response
                 = length (Spec.with_severity SeverityLevel.FAIL findings)
              /\ total_checks response = length findings
              /\ total_checks response <> 0%nat
              /\ score response
                 = Some (Spec.decimal1 (Spec.nearest_tenth exact))
              /\ (Qabs (exact - inject_Z (Spec.nearest_tenth exact) / 10)
                  < 1 # 20)%Q.
Proof.
  split.
  - intros scan_id url t0 t1 findings Hl.
    unfold engine.complete_response. proj.
    rewrite score_of_no_findings by exact Hl. reflexivity.
  - intros doc. destruct (run_catalogue doc) as (findings & Hrun & Hlen & _).
    exists findings. split; [exact Hrun|].
    intros scan_id url t0 t1. unfold engine.complete_response. proj.
    destruct (count_by_severity findings) as (Hp & Hw & Hf).
    pose proof (counts_partition findings) as Hsum.
    assert (Hle : (engine.passed findings + engine.warnings findings
                   <= engine.total findings)%nat) by lia.
    destruct (score_rounds_exact_catalogue _ _ _ Hlen Hle) as (Hs & Hq).
    repeat split; try assumption.
    + unfold engine.total. lia.
    + unfold Spec.stored_score in Hs. unfold engine.score, engine.total.
      rewrite Hs. reflexivity.
Qed.

(** C2, as the code has it.  A scan with no finding scores 100.0.  On any
    page the catalogue returns ten or eleven findings, never none; the score
    of the scan lies in [0, 100] and it is 100.0 exactly when no finding is
    a Warning or a Fail. *)
Theorem score_range :
  (forall scan_id url start_time end_time findings,
     engine.total findings = 0%nat ->
     score (engine.complete_response scan_id url start_time end_time findings)
     = Some 100%float)
  /\ forall parsed_html,
       exists findings,
         engine.run_rules rules.ALL_RULES parsed_html = Ok findings
         /\ forall scan_id url start_time end_time,
              let response :=
                engine.complete_response scan_id url start_time end_time findings in
              exists s,
                score response = Some s
                /\ (0 <=? s)%float = true
                /\ (s <=? 100)%float = true
                /\ (s = 100%float
                    <-> warnings response = 0%nat /\ failures response = 0%nat)
                /\ (total_checks response = 10%nat
                    \/ total_checks response = 11%nat).
Proof.
  split.
  - intros scan_id url t0 t1 findings Hl.
    unfold engine.complete_response. proj.
    rewrite score_of_no_findings by exact Hl. reflexivity.
  - intros doc. destruct (run_catalogue doc) as (findings & Hrun & Hlen & _).
    exists findings. split; [exact Hrun|].
    intros scan_id url t0 t1. unfold engine.complete_response. proj.
    pose proof (counts_partition findings) as Hsum.
    assert (Hle : (engine.passed findings + engine.warnings findings
                   <= engine.total findings)%nat) by lia.
    destruct (score_in_range_catalogue _ _ _ Hlen Hle) as (H0 & H100 & Hiff).
    eexists. split; [reflexivity|].
    unfold Spec.stored_score in *. unfold engine.score, engine.total in *.
    repeat split; try assumption.
    + apply Hiff in H1. lia.
    + apply Hiff in H1. lia.
    + intros [Hw Hf]. apply Hiff. lia.
Qed.

(** C10. On any page, the four per-principle counters of a scan add up to
    [warnings + failures]: every finding of the catalogue is filed under one
    of the four principles, and each counter counts the Warning and Fail
    findings filed under its principle (a Pass finding counts nowhere). *)
Theorem principle_counters_add_up (parsed_html : ParsedHTML) :
  exists findings,
    engine.run_rules rules.ALL_RULES parsed_html = Ok findings
    /\ Forall (fun f => principle f ∈ Spec.principles) findings
    /\ forall scan_id url start_time end_time,
         let response :=
           engine.complete_response scan_id url start_time end_time findings in
         let issues_under k :=
           sum_1_for (fun f => Spec.is_issue f && String.eqb (principle f) k)
                     findings in
         (perceivable_issues response + operable_issues response
          + understandable_issues response + robust_issues response
          = warnings response + failures response)%nat
         /\ perceivable_issues response = issues_under "Perceivable"
         /\ operable_issues response = issues_under "Operable"
         /\ understandable_issues response = issues_under "Understandable"
         /\ robust_issues response = issues_under "Robust".
Proof.
  destruct (run_catalogue parsed_html) as (findings & Hrun & _ & Hp).
  exists findings. split; [exact Hrun|]. split; [exact Hp|].
  intros scan_id url t0 t1. unfold engine.complete_response. proj.
  rewrite !principle_counts_spec by (unfold Spec.principles; repeat constructor).
  split; [|repeat split].
  rewrite issues_by_principle by exact Hp. apply issues_count.
Qed.



(** C3, as the code has it.  On a page with nothing for a rule to look at,
    the image-alt, form-label, button-name, link-text, duplicate-ID and
    ARIA-role rules each return exactly one Pass finding that says so; the
    heading-hierarchy rule, on a page with no heading, returns exactly one
    Warning finding. *)
Theorem nothing_applicable (parsed_html : ParsedHTML) :
  (images parsed_html = [] ->
   ImageAltTextRule.check parsed_html
   = Ok [base.create_finding ImageAltTextRule.metadata SeverityLevel.PASS
           "All images have alt attributes" "N/A - Check passed" None 1])
  /\ (inputs parsed_html = [] ->
      FormLabelRule.check parsed_html
      = Ok [base.create_finding FormLabelRule.metadata SeverityLevel.PASS
              "No form inputs found on page" "N/A - No inputs to check" None 1])
  /\ (buttons parsed_html = [] ->
      ButtonAccessibleNameRule.check parsed_html
      = Ok [base.create_finding ButtonAccessibleNameRule.metadata
              SeverityLevel.PASS
              "No buttons found on page" "N/A - No buttons to check" None 1])
  /\ (links parsed_html = [] ->
      LinkTextRule.check parsed_html
      = Ok [base.create_finding LinkTextRule.metadata SeverityLevel.PASS
              "No links found on page" "N/A - No links to check" None 1])
  /\ (get_all_ids parsed_html = [] ->
      DuplicateIDRule.check parsed_html
      = Ok [base.create_finding DuplicateIDRule.metadata SeverityLevel.PASS
              "No ID attributes found" "N/A - No IDs to check" None 1])
  /\ (find_all_in (soup parsed_html) None [("role", Present)] = [] ->
      ARIARoleValidRule.check parsed_html
      = Ok [base.create_finding ARIARoleValidRule.metadata SeverityLevel.PASS
              "No ARIA roles found" "N/A - No roles to check" None 1])
  /\ (headings parsed_html = [] ->
      HeadingHierarchyRule.check parsed_html
      = Ok [base.create_finding HeadingHierarchyRule.metadata
              SeverityLevel.WARNING
              "No heading elements found on page"
              "Add heading structure (h1-h6) to organize content" None 1]).
Proof.
  repeat split.
  - intros E. unfold ImageAltTextRule.check, ImageAltTextRule.missing_alt.
    rewrite E. reflexivity.
  - intros E. unfold FormLabelRule.check, FormLabelRule.unlabeled.
    rewrite E. reflexivity.
  - intros E. unfold ButtonAccessibleNameRule.check,
      ButtonAccessibleNameRule.unnamed.
    rewrite E. reflexivity.
  - intros E. unfold LinkTextRule.check, LinkTextRule.empty_links,
      LinkTextRule.vague_links.
    rewrite E. reflexivity.
  - intros E. unfold DuplicateIDRule.check. rewrite E. reflexivity.
  - intros E. unfold ARIARoleValidRule.check, ARIARoleValidRule.invalid_roles.
    rewrite E. reflexivity.
  - intros E. unfold HeadingHierarchyRule.check. rewrite E. reflexivity.
Qed.

End Scans.

(** ** Duplicate ids *)

Section DuplicateIds.

Lemma occurrences_snoc x ids a :
  Spec.occurrences x (ids ++ [a])
  = (Spec.occurrences x ids + if String.eqb x a then 1 else 0)%nat.
Proof.
  unfold Spec.occurrences. rewrite List.filter_app, length_app. simpl.
  destruct (String.eqb x a); reflexivity.
Qed.

Lemma occurrences_pos x ids : x ∈ ids <-> (1 <= Spec.occurrences x ids)%nat.
Proof.
  unfold Spec.occurrences. induction ids as [|a ids IH]; simpl.
  - split; [intros Hx; inversion Hx | lia].
  - rewrite elem_of_cons.
    destruct (String.eqb_spec x a) as [->|Hne]; simpl.
    + split; [lia | auto].
    + rewrite <- IH. split; [intros [?|?]; [contradiction|assumption] | auto].
Qed.

(** The loop invariant: [seen] holds the ids met so far, [duplicates] those
    met at least twice. *)
Lemma loop_invariant ids :
  let st := fold_left DuplicateIDRule.step ids (∅, ∅) in
  (forall x, x ∈ st.1 <-> x ∈ ids)
  /\ (forall x, x ∈ st.2 <-> (2 <= Spec.occurrences x ids)%nat).
Proof.
  induction ids as [|a ids IH] using rev_ind; simpl.
  - split; intros x.
    + rewrite elem_of_nil. set_solver.
    + unfold Spec.occurrences. simpl. split; [set_solver | lia].
  - rewrite fold_left_app. simpl.
    destruct (fold_left DuplicateIDRule.step ids (∅, ∅)) as [seen dups].
    simpl in IH. destruct IH as [Hseen Hdups]. simpl. split; intros x.
    + rewrite elem_of_union, elem_of_singleton, Hseen, elem_of_app,
        list_elem_of_singleton. tauto.
    + rewrite occurrences_snoc.
      destruct (String.eqb_spec x a) as [->|Hne].
      * case_bool_decide as Ha.
        -- rewrite elem_of_union, elem_of_singleton, Hdups.
           apply Hseen, occurrences_pos in Ha.
           split; [intros _; lia | intros _; left; reflexivity].
        -- rewrite Hdups. rewrite Hseen, occurrences_pos in Ha. lia.
      * case_bool_decide as Ha.
        -- rewrite elem_of_union, elem_of_singleton, Hdups.
           split; [intros [?|?]; [contradiction|lia] | intros; right; lia].
        -- rewrite Hdups. lia.
Qed.

Lemma duplicates_spec ids x :
  x ∈ DuplicateIDRule.duplicates ids <-> (2 <= Spec.occurrences x ids)%nat.
Proof. apply (loop_invariant ids). Qed.

Lemma duplicates_size ids :
  size (DuplicateIDRule.duplicates ids) = Spec.distinct_duplicated ids.
Proof.
  unfold Spec.distinct_duplicated.
  set (l := List.filter _ _).
  assert (Hnd : NoDup l).
  { unfold l. apply NoDup_ListNoDup, List.NoDup_filter, NoDup_ListNoDup,
      NoDup_remove_dups. }
  rewrite <- (size_list_to_set (C := gset string) l Hnd).
  f_equal. apply set_eq. intros x.
  rewrite duplicates_spec, elem_of_list_to_set.
  unfold l. rewrite list_elem_of_In, List.filter_In, <- list_elem_of_In,
    elem_of_remove_dups, Nat.leb_le, occurrences_pos.
  lia.
Qed.

End DuplicateIds.

Section RuleProperties.
Context `{Runtime}.

(** C6. When some id value occurs more than once on a page, the
    duplicate-ID rule returns exactly one Fail finding whose count is the
    number of distinct values that occur more than once; when a single value
    is shared, however many elements share it, the count is 1. *)
Theorem duplicate_ids_counted_once (parsed_html : ParsedHTML) :
  let ids := get_all_ids parsed_html in
  (exists x, (2 <= Spec.occurrences x ids)%nat) ->
  exists f,
    DuplicateIDRule.check parsed_html = Ok [f]
    /\ severity f = SeverityLevel.FAIL
    /\ count f = Spec.distinct_duplicated ids
    /\ (forall x,
          (2 <= Spec.occurrences x ids)%nat ->
          (forall y, y <> x -> (Spec.occurrences y ids <= 1)%nat) ->
          count f = 1%nat).
Proof.
  intros ids [x Hx]. unfold DuplicateIDRule.check. fold ids.
  pose proof (duplicates_size ids) as Hsize.
  assert (Hin : x ∈ DuplicateIDRule.duplicates ids) by (apply duplicates_spec, Hx).
  destruct (size (DuplicateIDRule.duplicates ids)) as [|n] eqn:Hn.
  { apply size_empty_inv in Hn. rewrite Hn in Hin. set_solver. }
  simpl. eexists. split; [reflexivity|]. split; [reflexivity|].
  split; [exact Hsize|]. simpl.
  intros x' Hx' Hothers. rewrite <- Hn.
  assert (DuplicateIDRule.duplicates ids = {[x']}) as ->.
  { apply set_eq. intros y. rewrite duplicates_spec, elem_of_singleton.
    split.
    - intros Hy. destruct (decide (y = x')) as [->|Hne]; [reflexivity|].
      specialize (Hothers y Hne). lia.
    - intros ->. exact Hx'. }
  apply size_singleton.
Qed.

(** C7. The image-alt rule counts the images whose [alt] attribute is
    absent, and only those: with none it returns exactly one Pass finding,
    otherwise exactly one Fail finding whose count is their number.  For an
    image without [alt] next to one with [alt=""] the count is 1, and a page
    with no image gets exactly one Pass finding. *)
Theorem image_alt_absent_only :
  (forall parsed_html,
     let lacking :=
       List.filter (fun img => negb (is_Some_bool (get (node img) "alt")))
                   (images parsed_html) in
     (lacking = [] ->
      exists f, ImageAltTextRule.check parsed_html = Ok [f]
                /\ severity f = SeverityLevel.PASS)
     /\ (lacking <> [] ->
         exists f, ImageAltTextRule.check parsed_html = Ok [f]
                   /\ severity f = SeverityLevel.FAIL
                   /\ count f = length lacking))
  /\ (exists f, ImageAltTextRule.check Sample.two_images = Ok [f]
                /\ severity f = SeverityLevel.FAIL
                /\ count f = 1%nat)
  /\ (forall parsed_html,
        images parsed_html = [] ->
        exists f, ImageAltTextRule.check parsed_html = Ok [f]
                  /\ severity f = SeverityLevel.PASS).
Proof.
  assert (Hgen : forall parsed_html,
     let lacking :=
       List.filter (fun img => negb (is_Some_bool (get (node img) "alt")))
                   (images parsed_html) in
     (lacking = [] ->
      exists f, ImageAltTextRule.check parsed_html = Ok [f]
                /\ severity f = SeverityLevel.PASS)
     /\ (lacking <> [] ->
         exists f, ImageAltTextRule.check parsed_html = Ok [f]
                   /\ severity f = SeverityLevel.FAIL
                   /\ count f = length lacking)).
  { intros doc lacking.
    unfold ImageAltTextRule.check, ImageAltTextRule.missing_alt. fold lacking.
    destruct lacking as [|img l]; simpl; split.
    - intros _. eexists. split; reflexivity.
    - intros Hne. contradiction.
    - intros E. discriminate E.
    - intros _. eexists. split; [reflexivity|]. split; [reflexivity|].
      simpl. rewrite length_map. reflexivity. }
  split; [exact Hgen|]. split.
  - destruct (Hgen Sample.two_images) as [_ Hfail].
    destruct Hfail as (f & E & Hs & Hc); [vm_compute; discriminate|].
    exists f. repeat split; assumption.
  - intros doc E. apply (Hgen doc). rewrite E. reflexivity.
Qed.

(** C9 on the code.  For a link with text of its own, the rule files it as
    vague exactly when that text, trimmed and in lower case, is one of the
    five phrases: [Click here] gives one Warning finding and [More about
    us], which only contains a phrase, passes.  The text of an [aria-label]
    is trimmed but not put in lower case: a link labelled [Click here]
    passes. *)
Theorem link_text_matching :
  (forall link,
     truthy (lower (strip (get_text (node link)))) = true ->
     LinkTextRule.is_vague_link link
     = in_list (lower (strip (get_text (node link)))) LinkTextRule.vague_texts)
  /\ (exists f, LinkTextRule.check Sample.click_here = Ok [f]
                /\ severity f = SeverityLevel.WARNING /\ count f = 1%nat)
  /\ (exists f, LinkTextRule.check Sample.more_about_us = Ok [f]
                /\ severity f = SeverityLevel.PASS)
  /\ (exists f, LinkTextRule.check Sample.click_here_label = Ok [f]
                /\ severity f = SeverityLevel.PASS
                /\ message f = "All 1 links have meaningful text").
Proof.
  split; [|split; [|split]].
  - intros link Ht.
    assert (E : LinkTextRule.effective_text link
                = lower (strip (get_text (node link)))).
    { unfold LinkTextRule.effective_text, or_else. rewrite Ht. simpl.
      rewrite Ht. reflexivity. }
    unfold LinkTextRule.is_vague_link. rewrite E, Ht. reflexivity.
  - eexists. split; [|split]; reflexivity.
  - eexists. split; reflexivity.
  - eexists. split; [|split]; reflexivity.
Qed.

End RuleProperties.

(** ** The orchestrator *)

Section Orchestrator.
Context `{Runtime}.

(** A scan that returns a response has run the rules on the page it
    fetched and parsed, and the response is built from their findings. *)
Lemma scan_url_complete self settings table world url table' response :
  engine.scan_url self settings table world url = (table', Ok response) ->
  exists html_content parsed_html findings,
    fetcher.fetch (engine.fetcher self) settings (engine.exchange world)
    = Ok html_content
    /\ parse html_content = Ok parsed_html
    /\ engine.run_rules (engine.rules self) parsed_html = Ok findings
    /\ response
       = engine.complete_response (slice_to 12 (engine.uuid4 world)) url
           (engine.utcnow_start world) (engine.utcnow_end world) findings.
Proof.
  unfold engine.scan_url, engine.fetch_parse_check.
  destruct (database.add table _) as [table1|e]; [|destruct (table !! _); discriminate].
  destruct (fetcher.fetch _ _ _) as [html|e]; simpl;
    [|destruct (table1 !! _); discriminate].
  destruct (parse html) as [doc|e] eqn:Hparse; simpl;
    [|destruct (table1 !! _); discriminate].
  destruct (engine.run_rules _ doc) as [findings|e] eqn:Hrun;
    [|destruct (table1 !! _); discriminate].
  destruct (table1 !! _); [|discriminate].
  intros [= _ <-]. exists html, doc, findings. auto.
Qed.


End Orchestrator.

(** ** The properties on sample inputs *)

Section Samples.
#[local] Existing Instance Sample.runtime.

(** A scan without findings scores 100.0. *)
Lemma score_formula_witness :
  score (engine.complete_response "3f2b8c1e-9d4" "https://example.com" 0%Z 1%Z [])
  = Some 100%float.
Proof.
  exact (proj1 score_formula
           "3f2b8c1e-9d4" "https://example.com" 0%Z 1%Z [] eq_refl).
Defined.

(** The same scan, for the range of the score. *)
Lemma score_range_witness :
  score (engine.complete_response "3f2b8c1e-9d4" "https://example.com" 0%Z 1%Z [])
  = Some 100%float.
Proof.
  exact (proj1 score_range
           "3f2b8c1e-9d4" "https://example.com" 0%Z 1%Z [] eq_refl).
Defined.

(** C2 fails on the code: the sample page passes all ten checks, so its scan
    scores 100.0 with [total_checks] equal to 10. *)
Lemma perfect_score_with_ten_checks :
  exists findings,
    engine.run_rules rules.ALL_RULES Sample.clean = Ok findings
    /\ score (engine.complete_response "3f2b8c1e-9d4" "https://example.com"
                0%Z 1%Z findings) = Some 100%float
    /\ total_checks (engine.complete_response "3f2b8c1e-9d4"
                       "https://example.com" 0%Z 1%Z findings) = 10%nat.
Proof.
  eexists. split; [vm_compute; reflexivity|]. split; vm_compute; reflexivity.
Qed.

(** The empty page has no heading and no id. *)
Lemma nothing_applicable_witness :
  HeadingHierarchyRule.check Sample.empty
  = Ok [base.create_finding HeadingHierarchyRule.metadata SeverityLevel.WARNING
          "No heading elements found on page"
          "Add heading structure (h1-h6) to organize content" None 1]
  /\ DuplicateIDRule.check Sample.empty
     = Ok [base.create_finding DuplicateIDRule.metadata SeverityLevel.PASS
             "No ID attributes found" "N/A - No IDs to check" None 1].
Proof.
  pose proof (nothing_applicable Sample.empty)
    as (_ & _ & _ & _ & Hids & _ & Hheadings).
  split; [apply Hheadings | apply Hids]; reflexivity.
Defined.

(** C3 fails on the code: the empty page has no heading, and the
    heading-hierarchy rule returns a Warning finding for it. *)
Lemma no_heading_is_a_warning :
  headings Sample.empty = []
  /\ exists f, HeadingHierarchyRule.check Sample.empty = Ok [f]
               /\ severity f = SeverityLevel.WARNING.
Proof. split; [reflexivity|]. eexists. split; reflexivity. Qed.

(** Three elements share the id [x]; a fourth has an id of its own. *)
Lemma duplicate_ids_counted_once_witness :
  (exists x, (2 <= Spec.occurrences x (get_all_ids Sample.shared_id))%nat)
  /\ exists f,
       DuplicateIDRule.check Sample.shared_id = Ok [f]
       /\ severity f = SeverityLevel.FAIL
       /\ count f = 1%nat.
Proof.
  assert (Hx : exists x, (2 <= Spec.occurrences x (get_all_ids Sample.shared_id))%nat).
  { exists "x". apply Nat.leb_le. reflexivity. }
  split; [exact Hx|].
  destruct (duplicate_ids_counted_once Sample.shared_id Hx)
    as (f & E & Hs & _ & Hone).
  exists f. split; [exact E|]. split; [exact Hs|].
  apply (Hone "x").
  - apply Nat.leb_le. reflexivity.
  - intros y Hy.
    change (get_all_ids Sample.shared_id) with ["x"; "x"; "x"; "y"].
    unfold Spec.occurrences. simpl.
    destruct (String.eqb_spec y "x") as [->|_]; [contradiction|].
    destruct (String.eqb y "y"); simpl; lia.
Defined.



End Samples.

(** ** Further properties *)

Section Further.
Context `{Runtime}.

(** Every element [find_all(id=True)] returns has an id, so the list of ids
    has one entry for each of them. *)
Lemma get_all_ids_complete parsed_html :
  length (get_all_ids parsed_html)
  = length (find_all_in (soup parsed_html) None [("id", Present)]).
Proof.
  unfold get_all_ids, find_all_in.
  induction (descendants (soup parsed_html)) as [|e l IH]; simpl; [reflexivity|].
  destruct (matches None [("id", Present)] (node e)) eqn:Hm; [|exact IH].
  unfold matches, attr_matches in Hm. simpl in Hm.
  cbn [omap list_omap length].
  destruct (get (node e) "id"); cbn [length].
  - f_equal. exact IH.
  - rewrite andb_false_r in Hm. discriminate Hm.
Qed.

(** X1. The language rule returns exactly one finding on any page: a Pass
    when the first [html] tag has a non-empty [lang] attribute, and a Fail
    otherwise (no [html] tag, no [lang], or an empty one). *)
Theorem html_lang_required (parsed_html : ParsedHTML) :
  exists f,
    HTMLLangAttributeRule.check parsed_html = Ok [f]
    /\ (severity f = SeverityLevel.PASS \/ severity f = SeverityLevel.FAIL)
    /\ (severity f = SeverityLevel.PASS
        <-> exists html lang,
              html_tag parsed_html = Some html
              /\ get (node html) "lang" = Some lang
              /\ lang <> "").
Proof.
  unfold HTMLLangAttributeRule.check.
  destruct (html_tag parsed_html) as [html|].
  - destruct (get (node html) "lang") as [[|c lang]|] eqn:Hl; simpl;
      eexists; (split; [reflexivity|]); simpl.
    + split; [right; reflexivity|]. split; [discriminate|].
      intros (h & l & [= <-] & E & Hne). congruence.
    + split; [left; reflexivity|]. split; [|reflexivity].
      intros _. exists html, (String c lang). repeat split; [assumption|discriminate].
    + split; [right; reflexivity|]. split; [discriminate|].
      intros (h & l & [= <-] & E & _). congruence.
  - eexists. split; [reflexivity|]. simpl.
    split; [right; reflexivity|]. split; [discriminate|].
    intros (h & l & E & _). discriminate E.
Qed.

(** X3. A scan whose id is new either returns a response, complete with a
    score, and leaves its row complete with the same score and findings, or
    raises and leaves its row failed with the message of the error, no score
    and no findings.  The other rows of the table are as they were. *)
Theorem scan_outcome (settings : config.Settings)
    (table : gmap string database.ScanRecord) (world : engine.World)
    (url : string) :
  let self := engine.init settings in
  let scan_id := slice_to 12 (engine.uuid4 world) in
  table !! scan_id = None ->
  exists table' result record,
    engine.scan_url self settings table world url = (table', result)
    /\ table' !! scan_id = Some record
    /\ (forall other, other <> scan_id -> table' !! other = table !! other)
    /\ match result with
       | Ok response =>
           status response = ScanStatus.COMPLETE
           /\ models.scan_id response = scan_id
           /\ (exists s, score response = Some s)
           /\ database.status record = "complete"
           /\ database.score record = score response
           /\ database.findings record = Some (findings response)
           /\ database.error_message record = None
       | Raise e =>
           database.status record = "failed"
           /\ database.error_message record = Some (exc_str e)
           /\ database.score record = None
           /\ database.findings record = None
       end.
Proof.
  intros self scan_id Hfresh.
  unfold engine.scan_url, database.add. fold scan_id.
  cbn [database.scan_id database.new_record]. rewrite Hfresh.
  destruct (engine.fetch_parse_check self settings world) as [findings|e];
    rewrite lookup_insert_eq.
  - eexists. eexists. eexists. split; [reflexivity|].
    split; [apply lookup_insert_eq|]. split.
    + intros other Hne. rewrite !lookup_insert_ne by congruence. reflexivity.
    + repeat split. eexists. reflexivity.
  - eexists. eexists. eexists. split; [reflexivity|].
    split; [apply lookup_insert_eq|]. split.
    + intros other Hne. rewrite !lookup_insert_ne by congruence. reflexivity.
    + repeat split.
Qed.

End Further.

Section FurtherSamples.
#[local] Existing Instance Sample.runtime.

(** Headings h1, h3 in that order give one Warning finding for the level
    skipped between them; h1, h2, h3 give one Pass finding. *)
Example heading_hierarchy_examples :
  (exists f,
     HeadingHierarchyRule.check Sample.skipped_heading = Ok [f]
     /\ severity f = SeverityLevel.WARNING
     /\ count f = 1%nat
     /\ element f = Some "Skipped from 1 to 3 at heading: 'Details'")
  /\ (exists f,
        HeadingHierarchyRule.check Sample.ordered_headings = Ok [f]
        /\ severity f = SeverityLevel.PASS).
Proof.
  split; eexists; repeat split; reflexivity.
Qed.

(** A scan of a small page with the settings of [config.py]. *)
Lemma scan_outcome_witness :
  exists table' response,
    engine.scan_url (engine.init config.settings) config.settings ∅
      (Sample.world Sample.small_response) "https://example.com"
    = (table', Ok response)
    /\ status response = ScanStatus.COMPLETE
    /\ score response = Some 70%float
    /\ (database.status <$> table' !! "3f2b8c1e-9d4") = Some "complete".
Proof.
  destruct (scan_outcome config.settings ∅ (Sample.world Sample.small_response)
              "https://example.com" (lookup_empty _))
    as (table' & result & record & Hscan & Hrow & _ & Hres).
  assert (Hrun : exists findings,
            engine.fetch_parse_check (engine.init config.settings)
              config.settings (Sample.world Sample.small_response) = Ok findings
            /\ round1 (engine.score findings) = 70%float).
  { eexists. split; vm_compute; reflexivity. }
  destruct Hrun as (findings & Hrun & Hscore).
  pose proof Hscan as Hcall.
  unfold engine.scan_url, database.add in Hscan.
  cbn [database.scan_id database.new_record] in Hscan.
  rewrite lookup_empty, Hrun, lookup_insert_eq in Hscan.
  injection Hscan as _ Hresult. subst result.
  destruct Hres as (Hst & _ & _ & Hrec & _).
  eexists table', _. split; [exact Hcall|].
  split; [reflexivity|].
  split; [cbn [score engine.complete_response]; rewrite Hscore; reflexivity|].
  change (table' !! "3f2b8c1e-9d4" = Some record) in Hrow.
  rewrite Hrow. simpl. rewrite Hrec. reflexivity.
Defined.

End FurtherSamples.

(** * Further properties of the code *)

(** ** Strings *)

Section Strings.






Lemma rstrip_idempotent s : rstrip (rstrip s) = rstrip s.
Proof.
  induction s as [|c s IH]; simpl; [reflexivity|].
  destruct (isspace c && negb (truthy (rstrip s))) eqn:E; simpl; [reflexivity|].
  rewrite IH, E. reflexivity.
Qed.

Lemma lstrip_rstrip_lstrip s : lstrip (rstrip (lstrip s)) = rstrip (lstrip s).
Proof.
  induction s as [|c s IH]; simpl; [reflexivity|].
  destruct (isspace c) eqn:E; [exact IH|].
  simpl. rewrite E. simpl. rewrite E. reflexivity.
Qed.

(** Stripping a stripped string changes nothing. *)
Lemma strip_idempotent s : strip (strip s) = strip s.
Proof.
  unfold strip. rewrite lstrip_rstrip_lstrip. apply rstrip_idempotent.
Qed.

End Strings.

(** ** The request *)






(** ** The fetcher *)


(** ** Findings of the rules *)

Section Findings.
Context `{Runtime}.

(** Closes the well-formedness of the findings of a branch of [check]. *)
Ltac well_formed :=
  eexists; split; [reflexivity|];
  repeat (apply Forall_cons; split;
          [ split; [repeat split|];
            split; [simpl; lia | intros Hs; first [discriminate Hs | split; reflexivity]]
          | ]);
  constructor.

Lemma image_alt_emits doc :
  exists fs, ImageAltTextRule.check doc = Ok fs
             /\ Forall (Expected.well_formed ImageAltTextRule.metadata) fs.
Proof.
  unfold ImageAltTextRule.check.
  destruct (ImageAltTextRule.missing_alt doc); well_formed.
Qed.

Lemma html_lang_emits doc :
  exists fs, HTMLLangAttributeRule.check doc = Ok fs
             /\ Forall (Expected.well_formed HTMLLangAttributeRule.metadata) fs.
Proof.
  unfold HTMLLangAttributeRule.check.
  destruct (html_tag doc) as [t|]; [|well_formed].
  destruct (truthy_opt (get (node t) "lang")); simpl; well_formed.
Qed.

Lemma page_title_emits doc :
  exists fs, PageTitleRule.check doc = Ok fs
             /\ Forall (Expected.well_formed PageTitleRule.metadata) fs.
Proof.
  unfold PageTitleRule.check.
  destruct (truthy_opt (title doc)); simpl; [|well_formed].
  destruct (String.length (strip _) =? 0)%nat; [well_formed|].
  destruct (String.length _ <? 3)%nat; well_formed.
Qed.

Lemma form_label_emits doc :
  exists fs, FormLabelRule.check doc = Ok fs
             /\ Forall (Expected.well_formed FormLabelRule.metadata) fs.
Proof.
  unfold FormLabelRule.check.
  destruct (FormLabelRule.unlabeled doc); [|well_formed].
  destruct (0 <? length (inputs doc))%nat; well_formed.
Qed.

Lemma button_name_emits doc :
  exists fs, ButtonAccessibleNameRule.check doc = Ok fs
             /\ Forall (Expected.well_formed ButtonAccessibleNameRule.metadata) fs.
Proof.
  unfold ButtonAccessibleNameRule.check.
  destruct (ButtonAccessibleNameRule.unnamed doc); [|well_formed].
  destruct (0 <? length (buttons doc))%nat; well_formed.
Qed.

Lemma link_text_emits doc :
  exists fs, LinkTextRule.check doc = Ok fs
             /\ Forall (Expected.well_formed LinkTextRule.metadata) fs.
Proof.
  unfold LinkTextRule.check.
  destruct (LinkTextRule.empty_links doc), (LinkTextRule.vague_links doc);
    simpl; try well_formed.
  destruct (0 <? length (links doc))%nat; well_formed.
Qed.

Lemma heading_emits doc :
  exists fs, HeadingHierarchyRule.check doc = Ok fs
             /\ Forall (Expected.well_formed HeadingHierarchyRule.metadata) fs.
Proof.
  unfold HeadingHierarchyRule.check.
  destruct (heading_levels doc) as [levels Hl].
  destruct (headings doc) as [|h hs] eqn:Hh; [well_formed|].
  rewrite Hl. simpl bind.
  destruct (HeadingHierarchyRule.skipped_from 0 0 (combine levels (h :: hs)));
    well_formed.
Qed.

Lemma h1_emits doc :
  exists fs, H1ExistsRule.check doc = Ok fs
             /\ Forall (Expected.well_formed H1ExistsRule.metadata) fs.
Proof.
  unfold H1ExistsRule.check.
  destruct (find_all doc "h1" []) as [|h1 [|h1' l]]; well_formed.
Qed.

Lemma duplicate_id_emits doc :
  exists fs, DuplicateIDRule.check doc = Ok fs
             /\ Forall (Expected.well_formed DuplicateIDRule.metadata) fs.
Proof.
  unfold DuplicateIDRule.check.
  destruct (size (DuplicateIDRule.duplicates (get_all_ids doc))) as [|n];
    simpl; [|well_formed].
  destruct (0 <? length (get_all_ids doc))%nat; well_formed.
Qed.

Lemma aria_role_emits doc :
  exists fs, ARIARoleValidRule.check doc = Ok fs
             /\ Forall (Expected.well_formed ARIARoleValidRule.metadata) fs.
Proof.
  unfold ARIARoleValidRule.check.
  destruct (ARIARoleValidRule.invalid_roles doc); [|well_formed].
  destruct (0 <? length (find_all_in (soup doc) None [("role", Present)]))%nat;
    well_formed.
Qed.

(** X6. Every finding a rule of the catalogue returns, on any page, carries
    the rule's own code, WCAG reference, level and principle; it counts at
    least one occurrence, and a Pass finding counts exactly one and shows no
    element. *)
Theorem findings_well_formed (parsed_html : ParsedHTML) :
  Forall
    (fun rule =>
       exists findings,
         base.check rule parsed_html = Ok findings
         /\ Forall (Expected.well_formed (base.metadata rule)) findings)
    rules.ALL_RULES.
Proof.
  unfold rules.ALL_RULES.
  repeat (apply Forall_cons; split;
    [ first [ apply image_alt_emits | apply html_lang_emits
            | apply page_title_emits | apply form_label_emits
            | apply button_name_emits | apply link_text_emits
            | apply heading_emits | apply h1_emits
            | apply duplicate_id_emits | apply aria_role_emits ]
    | ]).
  constructor.
Qed.

End Findings.

(** ** The findings of the catalogue *)

Section Order.
Context `{Runtime}.

Lemma one_finding m found result :
  Spec.reports m found 1 result ->
  (exists fs, result = Ok fs /\ Forall (Expected.well_formed m) fs) ->
  exists f, result = Ok [f] /\ Expected.carries m f.
Proof.
  intros (fs & -> & (Hne & _) & Hlen & _) (fs' & [= <-] & Hwf).
  destruct fs as [|f [|f' fs]]; [contradiction| |simpl in Hlen; lia].
  exists f. split; [reflexivity|]. apply Forall_inv in Hwf. apply Hwf.
Qed.

Lemma link_findings doc :
  exists findings,
    LinkTextRule.check doc = Ok findings
    /\ Forall (Expected.carries LinkTextRule.metadata) findings
    /\ ((exists f, findings = [f])
        \/ exists f g, findings = [f; g]
                       /\ severity f = SeverityLevel.FAIL
                       /\ severity g = SeverityLevel.WARNING).
Proof.
  destruct (link_text_emits doc) as (l & E & Hwf).
  exists l. split; [exact E|]. split.
  - eapply Forall_impl; [exact Hwf|]. intros f Hf. apply Hf.
  - revert E. unfold LinkTextRule.check.
    destruct (LinkTextRule.empty_links doc), (LinkTextRule.vague_links doc); simpl.
    + destruct (0 <? length (links doc))%nat; intros [= <-];
        left; eexists; reflexivity.
    + intros [= <-]. left. eexists. reflexivity.
    + intros [= <-]. left. eexists. reflexivity.
    + intros [= <-]. right. eexists. eexists. repeat split.
Qed.

Lemma heading_never_fails doc f :
  HeadingHierarchyRule.check doc = Ok [f] -> severity f <> SeverityLevel.FAIL.
Proof.
  unfold HeadingHierarchyRule.check.
  destruct (heading_levels doc) as [levels Hl].
  destruct (headings doc) as [|h hs]; [intros [= <-]; discriminate|].
  rewrite Hl. cbn [bind].
  destruct (HeadingHierarchyRule.skipped_from 0 0 _);
    intros [= <-]; discriminate.
Qed.

Lemma h1_never_fails doc f :
  H1ExistsRule.check doc = Ok [f] -> severity f <> SeverityLevel.FAIL.
Proof.
  unfold H1ExistsRule.check.
  destruct (find_all doc "h1" []) as [|h1 [|h1' l]];
    intros [= <-]; discriminate.
Qed.

(** The findings of the catalogue on a page, rule by rule. *)
Lemma catalogue_findings doc :
  exists f1 f2 f3 f4 f5 l6 f7 f8 f9 f10,
    engine.run_rules rules.ALL_RULES doc
    = Ok ([f1; f2; f3; f4; f5] ++ l6 ++ [f7; f8; f9; f10])
    /\ Expected.carries ImageAltTextRule.metadata f1
    /\ Expected.carries HTMLLangAttributeRule.metadata f2
    /\ Expected.carries PageTitleRule.metadata f3
    /\ Expected.carries FormLabelRule.metadata f4
    /\ Expected.carries ButtonAccessibleNameRule.metadata f5
    /\ Forall (Expected.carries LinkTextRule.metadata) l6
    /\ ((exists f, l6 = [f])
        \/ exists f g, l6 = [f; g]
                       /\ severity f = SeverityLevel.FAIL
                       /\ severity g = SeverityLevel.WARNING)
    /\ (Expected.carries HeadingHierarchyRule.metadata f7
        /\ severity f7 <> SeverityLevel.FAIL)
    /\ (Expected.carries H1ExistsRule.metadata f8
        /\ severity f8 <> SeverityLevel.FAIL)
    /\ Expected.carries DuplicateIDRule.metadata f9
    /\ Expected.carries ARIARoleValidRule.metadata f10.
Proof.
  destruct (one_finding _ _ _ (image_alt_reports doc) (image_alt_emits doc))
    as (f1 & E1 & C1).
  destruct (one_finding _ _ _ (html_lang_reports doc) (html_lang_emits doc))
    as (f2 & E2 & C2).
  destruct (one_finding _ _ _ (page_title_reports doc) (page_title_emits doc))
    as (f3 & E3 & C3).
  destruct (one_finding _ _ _ (form_label_reports doc) (form_label_emits doc))
    as (f4 & E4 & C4).
  destruct (one_finding _ _ _ (button_name_reports doc) (button_name_emits doc))
    as (f5 & E5 & C5).
  destruct (link_findings doc) as (l6 & E6 & C6 & Hshape).
  destruct (one_finding _ _ _ (heading_reports doc) (heading_emits doc))
    as (f7 & E7 & C7).
  destruct (one_finding _ _ _ (h1_reports doc) (h1_emits doc))
    as (f8 & E8 & C8).
  destruct (one_finding _ _ _ (duplicate_id_reports doc) (duplicate_id_emits doc))
    as (f9 & E9 & C9).
  destruct (one_finding _ _ _ (aria_role_reports doc) (aria_role_emits doc))
    as (f10 & E10 & C10).
  exists f1, f2, f3, f4, f5, l6, f7, f8, f9, f10.
  split.
  { unfold rules.ALL_RULES, engine.run_rules. simpl base.check.
    rewrite E1, E2, E3, E4, E5, E6, E7, E8, E9, E10. reflexivity. }
  repeat (split; [assumption|]).
  split; [split; [assumption|exact (heading_never_fails doc f7 E7)]|].
  split; [split; [assumption|exact (h1_never_fails doc f8 E8)]|].
  split; assumption.
Qed.

(** X7. On any page the findings of a scan come in the order of the
    catalogue: one finding for each rule, or two for the link rule (its
    Fail before its Warning), each under the code of its rule and at level
    AA. *)
Theorem findings_in_catalogue_order (parsed_html : ParsedHTML) :
  exists findings,
    engine.run_rules rules.ALL_RULES parsed_html = Ok findings
    /\ (map rule_code findings = Expected.codes 1
        \/ map rule_code findings = Expected.codes 2)
    /\ Forall (fun f => wcag_level f = WCAGLevel.AA) findings
    /\ forall f g rest,
         List.filter (fun f => String.eqb (rule_code f) "LINK_TEXT_EMPTY") findings
         = f :: g :: rest ->
         severity f = SeverityLevel.FAIL /\ severity g = SeverityLevel.WARNING
         /\ rest = [].
Proof.
  destruct (catalogue_findings parsed_html)
    as (f1 & f2 & f3 & f4 & f5 & l6 & f7 & f8 & f9 & f10 & Hrun
        & C1 & C2 & C3 & C4 & C5 & C6 & Hshape & [C7 _] & [C8 _] & C9 & C10).
  exists ([f1; f2; f3; f4; f5] ++ l6 ++ [f7; f8; f9; f10]).
  split; [exact Hrun|]. split; [|split].
  - destruct C1 as (R1 & _), C2 as (R2 & _), C3 as (R3 & _), C4 as (R4 & _),
      C5 as (R5 & _), C7 as (R7 & _), C8 as (R8 & _), C9 as (R9 & _),
      C10 as (R10 & _).
    unfold Expected.codes. rewrite !map_app. simpl.
    rewrite R1, R2, R3, R4, R5, R7, R8, R9, R10.
    destruct Hshape as [[f ->] | (f & g & -> & _)].
    + left. apply Forall_inv in C6. destruct C6 as (R6 & _). simpl.
      rewrite R6. reflexivity.
    + right. pose proof (Forall_inv C6) as (R6 & _).
      pose proof (Forall_inv (Forall_inv_tail C6)) as (R6' & _). simpl.
      rewrite R6, R6'. reflexivity.
  - destruct C1 as (_ & _ & L1 & _), C2 as (_ & _ & L2 & _),
      C3 as (_ & _ & L3 & _), C4 as (_ & _ & L4 & _), C5 as (_ & _ & L5 & _),
      C7 as (_ & _ & L7 & _), C8 as (_ & _ & L8 & _), C9 as (_ & _ & L9 & _),
      C10 as (_ & _ & L10 & _).
    repeat (apply Forall_cons; split; [assumption|]).
    apply Forall_app. split.
    + eapply Forall_impl; [exact C6|]. intros f (_ & _ & L & _). exact L.
    + repeat (apply Forall_cons; split; [assumption|]). constructor.
  - intros f g rest.
    destruct C1 as (R1 & _), C2 as (R2 & _), C3 as (R3 & _), C4 as (R4 & _),
      C5 as (R5 & _), C7 as (R7 & _), C8 as (R8 & _), C9 as (R9 & _),
      C10 as (R10 & _).
    simpl. rewrite R1, R2, R3, R4, R5. simpl.
    rewrite List.filter_app. simpl. rewrite R7, R8, R9, R10. simpl.
    rewrite app_nil_r.
    destruct Hshape as [[f' ->] | (f' & g' & -> & Hf & Hg)]; simpl.
    + destruct (String.eqb (rule_code f') "LINK_TEXT_EMPTY"); discriminate.
    + pose proof (Forall_inv C6) as (R6 & _).
      pose proof (Forall_inv (Forall_inv_tail C6)) as (R6' & _).
      rewrite R6, R6'. simpl. intros [= <- <- <-]. auto.
Qed.

Lemma failures_app fs gs :
  engine.failures (fs ++ gs) = (engine.failures fs + engine.failures gs)%nat.
Proof.
  unfold engine.failures.
  induction fs as [|f fs IH]; simpl; [reflexivity|]. rewrite IH. lia.
Qed.

Lemma failures_cons f fs :
  (engine.failures (f :: fs) <= 1 + engine.failures fs)%nat
  /\ (severity f <> SeverityLevel.FAIL ->
      engine.failures (f :: fs) = engine.failures fs).
Proof.
  unfold engine.failures, engine.has_severity. simpl.
  destruct (severity f); simpl; split; try lia; congruence.
Qed.

Lemma score_floor p w t :
  (t = 10 /\ 2 <= p + w \/ t = 11 /\ 3 <= p + w)%nat -> (p + w <= t)%nat ->
  (10 <=? round1 (engine.score_of p w t))%float = true.
Proof.
  intros [[-> Hlow] | [-> Hlow]] Hle; each_split p w.
Qed.

(** X17. No scan scores less than 10.0.  The heading-hierarchy rule and
    the h1 rule never return a Fail, so at most eight of ten findings, or
    eight of eleven, are failures, and the two that are left count for a
    half each at least. *)
Theorem score_at_least_ten (parsed_html : ParsedHTML) :
  exists findings,
    engine.run_rules rules.ALL_RULES parsed_html = Ok findings
    /\ (engine.warnings findings + engine.passed findings >= 2)%nat
    /\ forall scan_id url start_time end_time,
       exists s,
         score (engine.complete_response scan_id url start_time end_time findings)
         = Some s
         /\ (10 <=? s)%float = true.
Proof.
  destruct (catalogue_findings parsed_html)
    as (f1 & f2 & f3 & f4 & f5 & l6 & f7 & f8 & f9 & f10 & Hrun
        & _ & _ & _ & _ & _ & _ & Hshape & [_ S7] & [_ S8] & _ & _).
  eexists. split; [exact Hrun|].
  pose proof (counts_partition ([f1; f2; f3; f4; f5] ++ l6 ++ [f7; f8; f9; f10]))
    as Hsum.
  assert (Hlow :
    (engine.total ([f1; f2; f3; f4; f5] ++ l6 ++ [f7; f8; f9; f10]) = 10
     /\ engine.failures ([f1; f2; f3; f4; f5] ++ l6 ++ [f7; f8; f9; f10]) <= 8
     \/ engine.total ([f1; f2; f3; f4; f5] ++ l6 ++ [f7; f8; f9; f10]) = 11
        /\ engine.failures ([f1; f2; f3; f4; f5] ++ l6 ++ [f7; f8; f9; f10]) <= 8)%nat).
  { rewrite !failures_app. unfold engine.total. rewrite !length_app.
    pose proof (proj1 (failures_cons f1 [f2; f3; f4; f5])) as H1.
    pose proof (proj1 (failures_cons f2 [f3; f4; f5])) as H2.
    pose proof (proj1 (failures_cons f3 [f4; f5])) as H3.
    pose proof (proj1 (failures_cons f4 [f5])) as H4.
    pose proof (proj1 (failures_cons f5 [])) as H5.
    pose proof (proj2 (failures_cons f7 [f8; f9; f10]) S7) as H7.
    pose proof (proj2 (failures_cons f8 [f9; f10]) S8) as H8.
    pose proof (proj1 (failures_cons f9 [f10])) as H9.
    pose proof (proj1 (failures_cons f10 [])) as H10.
    change (engine.failures []) with 0%nat in *.
    destruct Hshape as [[f ->] | (f & g & -> & Hf & Hg)].
    - left. pose proof (proj1 (failures_cons f [])) as H6.
      change (engine.failures []) with 0%nat in *. simpl length. lia.
    - right. pose proof (proj1 (failures_cons f [g])) as H6.
      assert (Hg' : severity g <> SeverityLevel.FAIL) by (rewrite Hg; discriminate).
      pose proof (proj2 (failures_cons g []) Hg') as H6'.
      change (engine.failures []) with 0%nat in *. simpl length. lia. }
  split; [destruct Hlow as [[Ht Hf] | [Ht Hf]]; lia|].
  intros scan_id url start_time end_time.
  eexists. split; [reflexivity|].
  unfold engine.score. apply score_floor; [|lia].
  destruct Hlow as [[Ht Hf] | [Ht Hf]]; [left|right]; split; try exact Ht; lia.
Qed.

End Order.

(** ** The heading rules *)

Section Headings.

Lemma level_of_level h :
  in_list (name_of (node h)) ["h1"; "h2"; "h3"; "h4"; "h5"; "h6"] = true ->
  HeadingHierarchyRule.level_of h = Ok (Expected.level h)
  /\ (1 <= Expected.level h <= 6)%nat.
Proof.
  unfold in_list, HeadingHierarchyRule.level_of, Expected.level. simpl.
  intros Hn.
  repeat (apply orb_prop in Hn as [Hn | Hn];
          [apply String.eqb_eq in Hn; rewrite Hn; simpl; split; [reflexivity|lia]|]).
  discriminate Hn.
Qed.

Lemma headings_named doc :
  Forall (fun h => in_list (name_of (node h))
                     ["h1"; "h2"; "h3"; "h4"; "h5"; "h6"] = true)
         (headings doc).
Proof.
  unfold headings, find_all_in.
  induction (descendants (soup doc)) as [|e l IH]; simpl; [constructor|].
  destruct (matches _ _ (node e)) eqn:Hm; [|exact IH].
  apply Forall_cons; split; [|exact IH].
  unfold matches in Hm.
  apply andb_prop in Hm as [Hm _]. apply andb_prop in Hm as [_ Hm]. exact Hm.
Qed.

Lemma levels_of hs :
  Forall (fun h => in_list (name_of (node h))
                     ["h1"; "h2"; "h3"; "h4"; "h5"; "h6"] = true) hs ->
  mapM HeadingHierarchyRule.level_of hs = Ok (map Expected.level hs)
  /\ Forall (fun level => 1 <= level <= 6)%nat (map Expected.level hs).
Proof.
  induction 1 as [|h hs Hh _ [IH IHr]]; [split; [reflexivity|constructor]|].
  destruct (level_of_level h Hh) as [E Hr].
  cbn [mapM map]. rewrite E, IH. split; [reflexivity|].
  apply Forall_cons; split; assumption.
Qed.

Lemma skipped_later i prev_level hs :
  length (HeadingHierarchyRule.skipped_from (S i) prev_level
            (combine (map Expected.level hs) hs))
  = Expected.jumps prev_level (map Expected.level hs).
Proof.
  revert i prev_level. induction hs as [|h hs IH]; intros i prev_level;
    [reflexivity|].
  cbn [map combine HeadingHierarchyRule.skipped_from Expected.jumps].
  rewrite length_app, IH. cbn [Nat.eqb].
  destruct (prev_level + 1 <? Expected.level h)%nat; reflexivity.
Qed.

Lemma skipped_first hs :
  length (HeadingHierarchyRule.skipped_from 0 0
            (combine (map Expected.level hs) hs))
  = Expected.issues (map Expected.level hs).
Proof.
  destruct hs as [|h hs]; [reflexivity|].
  cbn [map combine HeadingHierarchyRule.skipped_from Expected.issues].
  rewrite length_app, skipped_later. cbn [Nat.eqb].
  destruct (Expected.level h =? 1)%nat; reflexivity.
Qed.

Lemma jumps_zero prev_level levels :
  Expected.jumps prev_level levels = 0%nat
  <-> forall i a b,
        (prev_level :: levels) !! i = Some a ->
        (prev_level :: levels) !! S i = Some b -> (b <= a + 1)%nat.
Proof.
  revert prev_level. induction levels as [|level levels IH]; intros prev_level.
  - split; [|reflexivity]. intros _ i a b _ Hb.
    destruct i; discriminate Hb.
  - cbn [Expected.jumps]. split.
    + intros Hz i a b Ha Hb.
      destruct (Nat.ltb_spec (prev_level + 1) level) as [Hlt|Hle];
        [discriminate Hz|].
      destruct i as [|i].
      * injection Ha as <-. injection Hb as <-. exact Hle.
      * apply (proj1 (IH level) Hz i a b); assumption.
    + intros Hall.
      destruct (Nat.ltb_spec (prev_level + 1) level) as [Hlt|Hle].
      * specialize (Hall 0%nat prev_level level eq_refl eq_refl). lia.
      * apply IH. intros i a b Ha Hb. apply (Hall (S i) a b); assumption.
Qed.

Lemma issues_zero levels :
  levels <> [] -> Expected.issues levels = 0%nat <-> Expected.well_nested levels.
Proof.
  destruct levels as [|level levels]; [congruence|]. intros _.
  unfold Expected.well_nested. cbn [Expected.issues].
  split.
  - intros Hz. destruct (Nat.eqb_spec level 1) as [->|Hne]; [|discriminate Hz].
    split; [reflexivity|]. apply jumps_zero. exact Hz.
  - intros [[= ->] Hall]. apply jumps_zero. exact Hall.
Qed.

(** X2. The heading-hierarchy rule returns one finding on any page.  The
    levels it reads are those of the tag names, between 1 and 6, and reading
    them never raises.  The finding is a Pass exactly when there is a
    heading, the first one is an h1, and no heading is more than one level
    below the heading before it; otherwise it is a Warning, which, on a page
    with headings, counts one issue for a first heading that is not an h1
    and one for each heading more than one level below the one before. *)
Theorem heading_hierarchy_verdict (parsed_html : ParsedHTML) :
  let levels := map Expected.level (headings parsed_html) in
  Forall (fun level => 1 <= level <= 6)%nat levels
  /\ exists f,
       HeadingHierarchyRule.check parsed_html = Ok [f]
       /\ (severity f = SeverityLevel.PASS \/ severity f = SeverityLevel.WARNING)
       /\ (severity f = SeverityLevel.PASS <-> Expected.well_nested levels)
       /\ (levels <> [] -> severity f = SeverityLevel.WARNING ->
           count f = Expected.issues levels /\ is_Some (element f)).
Proof.
  intros levels.
  destruct (levels_of _ (headings_named parsed_html)) as [Hl Hr].
  split; [exact Hr|].
  unfold HeadingHierarchyRule.check.
  subst levels. destruct (headings parsed_html) as [|h hs] eqn:Hh.
  - eexists. split; [reflexivity|]. split; [right; reflexivity|].
    split; [|intros Hne; contradiction Hne; reflexivity].
    split; [discriminate|]. intros [Hfirst _]. discriminate Hfirst.
  - rewrite Hl. cbn [bind].
    pose proof (skipped_first (h :: hs)) as Hlen.
    pose proof (issues_zero (map Expected.level (h :: hs))) as Hz.
    destruct (HeadingHierarchyRule.skipped_from 0 0 _) as [|s skipped].
    + eexists. split; [reflexivity|]. split; [left; reflexivity|].
      split; [|discriminate].
      split; [|reflexivity]. intros _. apply Hz; [discriminate|].
      rewrite <- Hlen. reflexivity.
    + eexists. split; [reflexivity|]. split; [right; reflexivity|].
      split.
      * split; [discriminate|]. intros Hw.
        apply Hz in Hw; [|discriminate]. rewrite <- Hlen in Hw. discriminate Hw.
      * intros _ _. split; [exact Hlen|]. eexists. reflexivity.
Qed.

Lemma h1_among_headings doc h hs :
  headings doc = h :: hs -> Expected.level h = 1%nat ->
  find_all doc "h1" [] <> [].
Proof.
  unfold headings, find_all, find_all_in. intros Hh Hlevel Hnone.
  assert (Hin : In h (List.filter
                        (fun e => matches (Some ["h1"; "h2"; "h3"; "h4"; "h5"; "h6"])
                                    [] (node e))
                        (descendants (soup doc)))).
  { rewrite Hh. left. reflexivity. }
  apply List.filter_In in Hin as [Hin Hm].
  assert (Hin' : In h (List.filter (fun e => matches (Some ["h1"]) [] (node e))
                         (descendants (soup doc)))).
  { apply List.filter_In. split; [exact Hin|].
    unfold matches in *. apply andb_prop in Hm as [Hm _].
    apply andb_prop in Hm as [Htag _]. rewrite Htag. simpl.
    unfold Expected.level in Hlevel. unfold in_list. simpl.
    destruct (String.eqb (name_of (node h)) "h1"); [reflexivity|].
    repeat match type of Hlevel with
           | (if ?b then _ else _) = _ => destruct b; [discriminate Hlevel|]
           end.
    discriminate Hlevel. }
  rewrite Hnone in Hin'. destruct Hin'.
Qed.

(** X8. A page without an h1 element gets two Warning findings for it: one
    from the h1 rule and one from the heading-hierarchy rule, which cannot
    pass, whatever the other headings are. *)
Theorem no_h1_warns_twice (parsed_html : ParsedHTML) :
  find_all parsed_html "h1" [] = [] ->
  exists f g,
    H1ExistsRule.check parsed_html = Ok [f]
    /\ severity f = SeverityLevel.WARNING
    /\ count f = 1%nat
    /\ HeadingHierarchyRule.check parsed_html = Ok [g]
    /\ severity g = SeverityLevel.WARNING
    /\ (1 <= count g)%nat.
Proof.
  intros Hnone.
  unfold H1ExistsRule.check. rewrite Hnone.
  eexists. 
  unfold HeadingHierarchyRule.check.
  destruct (levels_of _ (headings_named parsed_html)) as [Hl _].
  destruct (headings parsed_html) as [|h hs] eqn:Hh.
  - eexists. repeat split. simpl. lia.
  - rewrite Hl. cbn [bind].
    pose proof (skipped_first (h :: hs)) as Hlen.
    destruct (HeadingHierarchyRule.skipped_from 0 0 _) as [|s skipped].
    + exfalso. cbn [length map Expected.issues] in Hlen.
      destruct (Nat.eqb_spec (Expected.level h) 1) as [E|_]; [|discriminate Hlen].
      exact (h1_among_headings parsed_html h hs Hh E Hnone).
    + eexists. repeat split. simpl. lia.
Qed.

End Headings.

Section HeadingSamples.
#[local] Existing Instance Sample.runtime.

(** A page with an h2 and an h4 and no h1. *)
Lemma no_h1_warns_twice_witness :
  exists f g,
    H1ExistsRule.check Cases.subheadings_only = Ok [f]
    /\ severity f = SeverityLevel.WARNING
    /\ count f = 1%nat
    /\ HeadingHierarchyRule.check Cases.subheadings_only = Ok [g]
    /\ severity g = SeverityLevel.WARNING
    /\ (1 <= count g)%nat.
Proof. exact (no_h1_warns_twice Cases.subheadings_only eq_refl). Defined.

End HeadingSamples.

(** ** The page title and the links *)

Section TitleAndLinks.
Context `{Runtime}.

Lemma title_stripped doc t : title doc = Some t -> strip t = t.
Proof.
  unfold title. destruct (find_in _ _ _); [|discriminate].
  intros [= <-]. apply strip_idempotent.
Qed.

(** X9. The title rule returns one finding on any page.  A page without a
    title element, or whose title holds nothing but blanks, fails with the
    message that there is no title element; a title of one or two
    characters (blanks at its ends apart) is a Warning and a longer one a
    Pass.  The finding for an empty title is never returned. *)
Theorem page_title_verdict (parsed_html : ParsedHTML) :
  exists f,
    PageTitleRule.check parsed_html = Ok [f]
    /\ message f <> "Page title is empty"
    /\ (title parsed_html = None \/ title parsed_html = Some "" ->
        severity f = SeverityLevel.FAIL
        /\ message f = "Page has no <title> element"
        /\ element f = None)
    /\ forall t,
         title parsed_html = Some t -> t <> "" ->
         ((String.length t < 3)%nat ->
          severity f = SeverityLevel.WARNING
          /\ element f = Some ("<title>" +:+ t +:+ "</title>"))
         /\ ((3 <= String.length t)%nat -> severity f = SeverityLevel.PASS).
Proof.
  unfold PageTitleRule.check.
  pose proof (title_stripped parsed_html) as Hstrip.
  destruct (title parsed_html) as [[|c t]|].
  - eexists. split; [reflexivity|]. split; [discriminate|].
    split; [intros _; repeat split|].
    intros t [= <-] Hne. contradiction Hne; reflexivity.
  - cbn [truthy_opt truthy negb default from_option id].
    rewrite (Hstrip _ eq_refl). cbn [String.length Nat.eqb].
    destruct (Nat.ltb_spec (S (String.length t)) 3) as [Hshort|Hlong].
    + eexists. split; [reflexivity|]. split; [discriminate|].
      split; [intros [E|E]; discriminate E|].
      intros t' [= <-] _. split; [intros _; split; reflexivity|].
      cbn [String.length]. lia.
    + eexists. split; [reflexivity|]. split; [discriminate|].
      split; [intros [E|E]; discriminate E|].
      intros t' [= <-] _. split; [|reflexivity].
      cbn [String.length]. lia.
  - eexists. split; [reflexivity|]. split; [discriminate|].
    split; [intros _; repeat split|]. intros t E. discriminate E.
Qed.

Lemma filter_disjoint {A} (p q : A -> bool) l :
  (forall x, p x = true -> q x = false) ->
  (length (List.filter p l) + length (List.filter q l) <= length l)%nat.
Proof.
  intros Hpq. induction l as [|x l IH]; simpl; [lia|].
  destruct (p x) eqn:Hp.
  - rewrite (Hpq x Hp). simpl. lia.
  - destruct (q x); simpl; lia.
Qed.

(** X10. The link rule sorts the links of a page into those without a name
    and those with a vague one; no link is in both.  It returns a Fail
    finding that counts the first when there are any, then a Warning
    finding that counts the second when there are any, and one Pass finding
    when there are neither. *)
Theorem link_text_verdict (parsed_html : ParsedHTML) :
  let unnamed :=
    length (List.filter LinkTextRule.is_empty_link (links parsed_html)) in
  let vague :=
    length (List.filter LinkTextRule.is_vague_link (links parsed_html)) in
  (unnamed + vague <= length (links parsed_html))%nat
  /\ exists findings,
       LinkTextRule.check parsed_html = Ok findings
       /\ map (fun f => (severity f, count f)) findings
          = (if (unnamed =? 0)%nat then [] else [(SeverityLevel.FAIL, unnamed)])
            ++ (if (vague =? 0)%nat then [] else [(SeverityLevel.WARNING, vague)])
            ++ (if (unnamed =? 0)%nat && (vague =? 0)%nat
                then [(SeverityLevel.PASS, 1%nat)] else []).
Proof.
  intros unnamed vague. split.
  - apply filter_disjoint. intros link.
    unfold LinkTextRule.is_empty_link, LinkTextRule.is_vague_link.
    destruct (truthy (LinkTextRule.effective_text link)); [discriminate|reflexivity].
  - unfold LinkTextRule.check, LinkTextRule.empty_links, LinkTextRule.vague_links.
    subst unnamed vague.
    destruct (List.filter LinkTextRule.is_empty_link (links parsed_html))
      as [|e es];
      destruct (List.filter LinkTextRule.is_vague_link (links parsed_html))
        as [|v vs]; cbn [map length Nat.eqb andb app].
    + destruct (0 <? length (links parsed_html))%nat;
        eexists; split; reflexivity.
    + eexists. split; [reflexivity|]. simpl. rewrite length_map. reflexivity.
    + eexists. split; [reflexivity|]. simpl. rewrite length_map. reflexivity.
    + eexists. split; [reflexivity|]. simpl. rewrite !length_map. reflexivity.
Qed.

End TitleAndLinks.

Section TitleAndLinksSamples.
#[local] Existing Instance Sample.runtime.

(** A title of one blank is reported as a missing title element; of three
    links, the blank one is counted as unnamed and [More] as vague. *)
Example blank_title_and_links :
  (exists f,
     PageTitleRule.check Cases.blank_title = Ok [f]
     /\ message f = "Page has no <title> element")
  /\ map (fun f => (severity f, count f))
         (match LinkTextRule.check Cases.blank_title with
          | Ok findings => findings
          | Raise _ => []
          end)
     = [(SeverityLevel.FAIL, 1%nat); (SeverityLevel.WARNING, 1%nat)].
Proof. split; [eexists; split; reflexivity|reflexivity]. Qed.

End TitleAndLinksSamples.

(** ** Scans and the table of scans *)

Section Table.
Context `{Runtime}.

(** The findings of a catalogue in two parts are those of the first part
    followed by those of the second; an exception of the first part comes
    before one of the second. *)
Lemma run_rules_app rules1 rules2 doc :
  engine.run_rules (rules1 ++ rules2) doc
  = bind (engine.run_rules rules1 doc) (fun findings1 =>
    bind (engine.run_rules rules2 doc) (fun findings2 =>
    Ok (findings1 ++ findings2))).
Proof.
  induction rules1 as [|rule rules1 IH]; simpl.
  - destruct (engine.run_rules rules2 doc); reflexivity.
  - destruct (base.check rule doc) as [fs|e]; simpl; [|reflexivity].
    rewrite IH.
    destruct (engine.run_rules rules1 doc) as [fs1|e]; simpl; [|reflexivity].
    destruct (engine.run_rules rules2 doc) as [fs2|e]; simpl; [|reflexivity].
    rewrite app_assoc. reflexivity.
Qed.

(** X11. When a rule raises, the scan raises the same exception, whatever
    the rules before it found and whatever rules come after it: the row of
    the scan is marked failed with the message of the exception, and none of
    the findings made so far is kept. *)
Theorem rule_fault_is_fatal (self : engine.ScanEngine)
    (settings : config.Settings) (table : gmap string database.ScanRecord)
    (world : engine.World) (url html_content : string)
    (parsed_html : ParsedHTML) (before after : list base.WCAGRule)
    (rule : base.WCAGRule) (found : list Finding) (e : Exception) :
  let scan_id := slice_to 12 (engine.uuid4 world) in
  table !! scan_id = None ->
  fetcher.fetch (engine.fetcher self) settings (engine.exchange world)
  = Ok html_content ->
  parse html_content = Ok parsed_html ->
  engine.rules self = before ++ rule :: after ->
  engine.run_rules before parsed_html = Ok found ->
  base.check rule parsed_html = Raise e ->
  exists table' record,
    engine.scan_url self settings table world url = (table', Raise e)
    /\ table' !! scan_id = Some record
    /\ database.status record = "failed"
    /\ database.error_message record = Some (exc_str e)
    /\ database.findings record = None
    /\ database.score record = None
    /\ database.total_checks record = 0%nat.
Proof.
  intros scan_id Hfresh Hfetch Hparse Hrules Hbefore Hrule.
  unfold engine.scan_url, engine.fetch_parse_check, database.add.
  fold scan_id. cbn [database.scan_id database.new_record].
  rewrite Hfresh, Hfetch. cbn [bind]. rewrite Hparse. cbn [bind].
  rewrite Hrules, run_rules_app, Hbefore. cbn [bind engine.run_rules].
  rewrite Hrule. cbn [bind]. rewrite lookup_insert_eq.
  eexists. eexists. split; [reflexivity|].
  rewrite lookup_insert_eq. repeat split.
Qed.

(** X12. When the id drawn for a scan is already in the table, the scan
    raises the integrity error of the insertion without fetching anything,
    and it is the row of the earlier scan that is marked failed with the
    message of that error; its url, score and findings stay.  The other rows
    are as they were. *)
Theorem scan_id_collision (self : engine.ScanEngine)
    (settings : config.Settings) (table : gmap string database.ScanRecord)
    (world : engine.World) (url : string) (earlier : database.ScanRecord) :
  let scan_id := slice_to 12 (engine.uuid4 world) in
  table !! scan_id = Some earlier ->
  exists e table' record,
    engine.scan_url self settings table world url = (table', Raise e)
    /\ exc_type e = "IntegrityError"
    /\ table' !! scan_id = Some record
    /\ database.status record = "failed"
    /\ database.error_message record = Some (exc_str e)
    /\ database.completed_at record = Some (engine.utcnow_end world)
    /\ database.url record = database.url earlier
    /\ database.score record = database.score earlier
    /\ database.findings record = database.findings earlier
    /\ database.created_at record = database.created_at earlier
    /\ forall other, other <> scan_id -> table' !! other = table !! other.
Proof.
  intros scan_id Hbusy.
  unfold engine.scan_url, database.add. fold scan_id.
  cbn [database.scan_id database.new_record]. rewrite Hbusy.
  eexists. eexists. eexists. split; [reflexivity|].
  split; [reflexivity|]. split; [apply lookup_insert_eq|].
  repeat (split; [reflexivity|]).
  intros other Hne. rewrite lookup_insert_ne by congruence. reflexivity.
Qed.

Lemma scan_url_returns self settings table world url table' response :
  engine.scan_url self settings table world url = (table', Ok response) ->
  let scan_id := slice_to 12 (engine.uuid4 world) in
  exists findings,
    table !! scan_id = None
    /\ response
       = engine.complete_response scan_id url (engine.utcnow_start world)
           (engine.utcnow_end world) findings
    /\ table'
       = <[scan_id :=
             engine.complete_record
               (database.new_record scan_id url "scanning"
                  (engine.utcnow_insert world))
               (engine.utcnow_start world) (engine.utcnow_end world) findings]>
           (<[scan_id := database.new_record scan_id url "scanning"
                           (engine.utcnow_insert world)]> table).
Proof.
  intros Hscan scan_id. revert Hscan.
  unfold engine.scan_url, database.add. fold scan_id.
  cbn [database.scan_id database.new_record].
  destruct (table !! scan_id) as [earlier|] eqn:Hrow; [discriminate|].
  destruct (engine.fetch_parse_check self settings world) as [findings|e];
    rewrite lookup_insert_eq; [|discriminate].
  intros [= <- <-]. exists findings. repeat split.
Qed.

(** X13. A scan that returns a response can be read back under the id of
    the response, from the engine and from the endpoint: what comes back is
    the response itself but for its creation time, which is the time of the
    insertion of the row and not the time the scan started.  The id was not
    in the table before. *)
Theorem scan_then_get (self : engine.ScanEngine) (settings : config.Settings)
    (table table' : gmap string database.ScanRecord) (world : engine.World)
    (url : string) (response : ScanResponse) :
  engine.scan_url self settings table world url = (table', Ok response) ->
  table !! models.scan_id response = None
  /\ created_at response = engine.utcnow_start world
  /\ engine.get_scan table' (models.scan_id response)
     = Ok (Some (Expected.with_created_at (engine.utcnow_insert world) response))
  /\ main.get_scan table' (models.scan_id response)
     = main.Returns
         (Expected.with_created_at (engine.utcnow_insert world) response).
Proof.
  intros Hscan.
  destruct (scan_url_returns _ _ _ _ _ _ _ Hscan) as (findings & Hfresh & -> & ->).
  cbn [models.scan_id engine.complete_response].
  split; [exact Hfresh|]. split; [reflexivity|].
  assert (Hget : engine.get_scan
            (<[slice_to 12 (engine.uuid4 world) :=
                 engine.complete_record
                   (database.new_record (slice_to 12 (engine.uuid4 world)) url
                      "scanning" (engine.utcnow_insert world))
                   (engine.utcnow_start world) (engine.utcnow_end world) findings]>
               (<[slice_to 12 (engine.uuid4 world) :=
                    database.new_record (slice_to 12 (engine.uuid4 world)) url
                      "scanning" (engine.utcnow_insert world)]> table))
            (slice_to 12 (engine.uuid4 world))
          = Ok (Some (Expected.with_created_at (engine.utcnow_insert world)
                        (engine.complete_response
                           (slice_to 12 (engine.uuid4 world)) url
                           (engine.utcnow_start world) (engine.utcnow_end world)
                           findings)))).
  { unfold engine.get_scan. rewrite lookup_insert_eq. reflexivity. }
  split; [exact Hget|]. unfold main.get_scan. rewrite Hget. reflexivity.
Qed.

Lemma complete_row_ok scan_record start_time end_time findings :
  database.error_message scan_record = None ->
  Expected.row_ok
    (engine.complete_record scan_record start_time end_time findings).
Proof.
  intros Hmsg. left. cbn.
  split; [reflexivity|]. split; [eexists; reflexivity|].
  split; [|exact Hmsg].
  exists findings. split; [reflexivity|]. split; [reflexivity|].
  apply counts_partition.
Qed.

Lemma failed_row_ok scan_record e now :
  Expected.row_ok (engine.failed_record scan_record e now).
Proof. right. split; [reflexivity|]. eexists. reflexivity. Qed.

Lemma table_ok_insert table scan_id record :
  Expected.table_ok table ->
  database.scan_id record = scan_id ->
  Expected.row_ok record ->
  Expected.table_ok (<[scan_id := record]> table).
Proof.
  intros Htable Hid Hrow k r.
  destruct (decide (k = scan_id)) as [->|Hne].
  - rewrite lookup_insert_eq. intros [= <-]. split; assumption.
  - rewrite lookup_insert_ne by congruence. apply Htable.
Qed.

(** X14. Scans keep the table of scans in order: if every row is filed
    under its own id and is either complete, with a score, its findings and
    counters that add up to their number, or failed, with a message, then
    so is every row after a scan, whatever its outcome. *)
Theorem scan_keeps_table (self : engine.ScanEngine) (settings : config.Settings)
    (table : gmap string database.ScanRecord) (world : engine.World)
    (url : string) :
  Expected.table_ok table ->
  Expected.table_ok (engine.scan_url self settings table world url).1.
Proof.
  intros Htable.
  unfold engine.scan_url, database.add.
  cbn [database.scan_id database.new_record].
  destruct (table !! slice_to 12 (engine.uuid4 world)) as [earlier|] eqn:Hrow.
  - cbn [fst].
    apply table_ok_insert; [exact Htable| |apply failed_row_ok].
    apply (Htable _ _ Hrow).
  - destruct (engine.fetch_parse_check self settings world) as [findings|e];
      rewrite lookup_insert_eq; cbn [fst].
    + rewrite insert_insert_eq.
      apply table_ok_insert; [exact Htable|reflexivity|].
      apply complete_row_ok. reflexivity.
    + rewrite insert_insert_eq.
      apply table_ok_insert; [exact Htable|reflexivity|apply failed_row_ok].
Qed.

(** X15. From a table in order, the endpoint that reads a scan never
    answers with the error 500: it returns the scan stored under the id,
    complete or failed, or answers 404, scan not found, when the id is not
    in the table. *)
Theorem stored_scans_readable (table : gmap string database.ScanRecord)
    (scan_id : string) :
  Expected.table_ok table ->
  match table !! scan_id with
  | Some record =>
      exists status,
        main.get_scan table scan_id
        = main.Returns (Expected.response_of status record)
        /\ ScanStatus.value status = database.status record
        /\ (status = ScanStatus.COMPLETE \/ status = ScanStatus.FAILED)
        /\ models.scan_id (Expected.response_of status record) = scan_id
  | None =>
      main.get_scan table scan_id
      = main.Aborts {| main.status_code := 404; main.detail := "Scan not found" |}
  end.
Proof.
  intros Htable. unfold main.get_scan, engine.get_scan.
  destruct (table !! scan_id) as [record|] eqn:Hrow; [|reflexivity].
  destruct (Htable _ _ Hrow) as [Hid [(Hst & _)|(Hst & _)]]; rewrite Hst; cbn.
  - exists ScanStatus.COMPLETE. repeat split; auto.
  - exists ScanStatus.FAILED. repeat split; auto.
Qed.

(** X16. The endpoint that starts a scan, for an id that is new.  Either it
    returns the response of a complete scan, which the reading endpoint
    then returns again (but for the creation time); or it answers with the
    error 500 whose detail is the message of the exception after
    [Scan failed: ], the message being the one stored in the row, and the
    reading endpoint then returns the scan as failed, without score and
    findings.  The error handler turns the error into a body with that
    detail and the status 500. *)
Theorem create_scan_reply (self : engine.ScanEngine) (settings : config.Settings)
    (table : gmap string database.ScanRecord) (world : engine.World)
    (url : string) :
  let scan_id := slice_to 12 (engine.uuid4 world) in
  table !! scan_id = None ->
  exists table' reply,
    main.create_scan self settings table world url = (table', reply)
    /\ match reply with
       | main.Returns response =>
           status response = ScanStatus.COMPLETE
           /\ models.scan_id response = scan_id
           /\ main.get_scan table' scan_id
              = main.Returns
                  (Expected.with_created_at (engine.utcnow_insert world) response)
       | main.Aborts exc =>
           (exists message,
              main.detail exc = "Scan failed: " +:+ message
              /\ (table' !! scan_id ≫= database.error_message) = Some message)
           /\ main.http_exception_handler exc
              = {| main.response_status := 500;
                   main.content_error := main.detail exc;
                   main.content_status_code := 500 |}
           /\ exists response,
                main.get_scan table' scan_id = main.Returns response
                /\ status response = ScanStatus.FAILED
                /\ score response = None
                /\ findings response = []
       end.
Proof.
  intros scan_id Hfresh.
  unfold main.create_scan, engine.scan_url, database.add. fold scan_id.
  cbn [database.scan_id database.new_record]. rewrite Hfresh.
  destruct (engine.fetch_parse_check self settings world) as [findings|e];
    rewrite lookup_insert_eq.
  - eexists. eexists. split; [reflexivity|].
    split; [reflexivity|]. split; [reflexivity|].
    unfold main.get_scan, engine.get_scan. rewrite lookup_insert_eq. reflexivity.
  - eexists. eexists. split; [reflexivity|]. split; [|split].
    + exists (exc_str e). split; [reflexivity|].
      rewrite lookup_insert_eq. reflexivity.
    + reflexivity.
    + unfold main.get_scan, engine.get_scan. rewrite lookup_insert_eq.
      eexists. split; [reflexivity|]. repeat split.
Qed.

End Table.

Section TableSamples.
#[local] Existing Instance Sample.runtime.

Lemma rule_fault_is_fatal_witness :
  exists table' record,
    engine.scan_url Cases.faulty_engine config.settings ∅
      (Sample.world Sample.small_response) "https://example.com"
    = (table', Raise (ValueError "rule failed"))
    /\ table' !! "3f2b8c1e-9d4" = Some record
    /\ database.status record = "failed"
    /\ database.error_message record = Some "rule failed"
    /\ database.findings record = None
    /\ database.score record = None
    /\ database.total_checks record = 0%nat.
Proof.
  exact (rule_fault_is_fatal Cases.faulty_engine config.settings ∅
           (Sample.world Sample.small_response) "https://example.com" "a"
           {| soup := document [NavigableString "a"]; raw_html := "a" |}
           [ImageAltTextRule.rule] [] Cases.faulty_rule
           [base.create_finding ImageAltTextRule.metadata SeverityLevel.PASS
              "All images have alt attributes" "N/A - Check passed" None 1]
           (ValueError "rule failed")
           (lookup_empty _) eq_refl eq_refl eq_refl eq_refl eq_refl).
Defined.

Lemma scan_id_collision_witness :
  exists e table' record,
    engine.scan_url (engine.init config.settings) config.settings
      Cases.busy_table (Sample.world Sample.small_response)
      "https://example.com"
    = (table', Raise e)
    /\ exc_type e = "IntegrityError"
    /\ table' !! "3f2b8c1e-9d4" = Some record
    /\ database.status record = "failed"
    /\ database.url record = "https://example.org"
    /\ database.score record = Some 100%float.
Proof.
  destruct (scan_id_collision (engine.init config.settings) config.settings
              Cases.busy_table (Sample.world Sample.small_response)
              "https://example.com" _ (lookup_singleton_eq _ _))
    as (e & table' & record & Hscan & Hty & Hrow & Hst & _ & _ & Hurl & Hsc & _).
  exists e, table', record. repeat split; assumption.
Defined.

Lemma sample_scan :
  exists table' response,
    engine.scan_url (engine.init config.settings) config.settings ∅
      (Sample.world Sample.small_response) "https://example.com"
    = (table', Ok response)
    /\ models.scan_id response = "3f2b8c1e-9d4".
Proof.
  assert (Hrun : exists findings,
            engine.fetch_parse_check (engine.init config.settings)
              config.settings (Sample.world Sample.small_response) = Ok findings).
  { eexists. vm_compute. reflexivity. }
  destruct Hrun as (findings & Hrun).
  unfold engine.scan_url, database.add.
  cbn [database.scan_id database.new_record].
  rewrite lookup_empty, Hrun, lookup_insert_eq.
  eexists. eexists. split; reflexivity.
Defined.

Lemma scan_then_get_witness :
  exists table' response,
    engine.scan_url (engine.init config.settings) config.settings ∅
      (Sample.world Sample.small_response) "https://example.com"
    = (table', Ok response)
    /\ main.get_scan table' "3f2b8c1e-9d4"
       = main.Returns (Expected.with_created_at 1000500%Z response)
    /\ created_at response = 1000000%Z.
Proof.
  destruct sample_scan as (table' & response & Hscan & Hid).
  destruct (scan_then_get _ _ _ _ _ _ _ Hscan) as (_ & Hstart & _ & Hget).
  rewrite Hid in Hget.
  exists table', response. repeat split; assumption.
Defined.

Lemma busy_table_ok : Expected.table_ok Cases.busy_table.
Proof.
  intros scan_id record Hrow. unfold Cases.busy_table in Hrow.
  apply lookup_singleton_Some in Hrow as [<- <-].
  split; [reflexivity|]. left.
  split; [reflexivity|]. split; [eexists; reflexivity|].
  split; [|reflexivity]. exists []. repeat split.
Qed.

Lemma scan_keeps_table_witness :
  Expected.table_ok
    (engine.scan_url (engine.init config.settings) config.settings
       Cases.busy_table (Sample.world Sample.small_response)
       "https://example.com").1.
Proof.
  exact (scan_keeps_table (engine.init config.settings) config.settings
           Cases.busy_table (Sample.world Sample.small_response)
           "https://example.com" busy_table_ok).
Defined.

Lemma stored_scans_readable_witness :
  (exists status,
     main.get_scan Cases.busy_table "3f2b8c1e-9d4"
     = main.Returns (Expected.response_of status Cases.earlier_scan)
     /\ ScanStatus.value status = "complete"
     /\ (status = ScanStatus.COMPLETE \/ status = ScanStatus.FAILED)
     /\ models.scan_id (Expected.response_of status Cases.earlier_scan)
        = "3f2b8c1e-9d4")
  /\ main.get_scan Cases.busy_table "0a1b2c3d-4e5"
     = main.Aborts {| main.status_code := 404; main.detail := "Scan not found" |}.
Proof.
  split.
  - exact (stored_scans_readable Cases.busy_table "3f2b8c1e-9d4" busy_table_ok).
  - exact (stored_scans_readable Cases.busy_table "0a1b2c3d-4e5" busy_table_ok).
Defined.

Lemma create_scan_reply_witness :
  exists table' response,
    main.create_scan (engine.init config.settings) config.settings ∅
      (Sample.world Sample.small_response) "https://example.com"
    = (table', main.Returns response)
    /\ status response = ScanStatus.COMPLETE.
Proof.
  destruct (create_scan_reply (engine.init config.settings) config.settings ∅
              (Sample.world Sample.small_response) "https://example.com"
              (lookup_empty _))
    as (table' & reply & Hcall & Hreply).
  destruct sample_scan as (table1 & response & Hscan & _).
  unfold main.create_scan in Hcall. rewrite Hscan in Hcall.
  injection Hcall as <- <-.
  exists table1, response. split.
  - unfold main.create_scan. rewrite Hscan. reflexivity.
  - apply Hreply.
Defined.

End TableSamples.

(** ** Inputs that no rule looks at *)

Section Controls.
Context `{Runtime}.

Lemma filter_none {A} (p : A -> bool) l :
  Forall (fun x => p x = false) l -> List.filter p l = [].
Proof.
  induction 1 as [|x l Hx _ IH]; simpl; [reflexivity|]. rewrite Hx. exact IH.
Qed.

Lemma input_buttons_are_inputs doc e :
  In e (find_all_in (soup doc) (Some ["input"]) [("type", Equals "button")]) ->
  In e (inputs doc) /\ get (node e) "type" = Some "button".
Proof.
  unfold inputs, find_all_in. intros Hin.
  apply List.filter_In in Hin as [Hin Hm].
  unfold matches in Hm.
  apply andb_prop in Hm as [Hm Hattr]. apply andb_prop in Hm as [Htag Hname].
  split.
  - apply List.filter_In. split; [exact Hin|].
    unfold matches. rewrite Htag. simpl.
    unfold in_list in *. simpl in *. rewrite orb_false_r in Hname.
    rewrite Hname. reflexivity.
  - simpl in Hattr. rewrite andb_true_r in Hattr.
    unfold attr_matches in Hattr. simpl in Hattr.
    destruct (get (node e) "type") as [v|]; [|discriminate Hattr].
    apply String.eqb_eq in Hattr. rewrite Hattr. reflexivity.
Qed.

(** X18. Inputs of type hidden, submit or reset, and inputs whose type is
    [button] in any other spelling than lower case, are looked at by no
    rule: the label rule skips them, whatever the case of the type, and the
    button rule only takes the inputs whose type is [button] to the letter.
    A page whose only controls are such inputs passes both rules, whether
    the inputs have a name or not. *)
Theorem skipped_inputs_unchecked (parsed_html : ParsedHTML) :
  Forall (fun input_elem =>
            FormLabelRule.skipped input_elem = true
            /\ get (node input_elem) "type" <> Some "button")
         (inputs parsed_html) ->
  find_all parsed_html "button" [] = [] ->
  exists f g,
    FormLabelRule.check parsed_html = Ok [f]
    /\ severity f = SeverityLevel.PASS
    /\ ButtonAccessibleNameRule.check parsed_html = Ok [g]
    /\ severity g = SeverityLevel.PASS
    /\ message g = "No buttons found on page".
Proof.
  intros Hskipped Hnone.
  assert (Hunlabeled : FormLabelRule.unlabeled parsed_html = []).
  { unfold FormLabelRule.unlabeled. rewrite filter_none; [reflexivity|].
    eapply Forall_impl; [exact Hskipped|].
    intros e [He _]. cbv beta. rewrite He. reflexivity. }
  assert (Hbuttons : buttons parsed_html = []).
  { unfold buttons. unfold find_all in Hnone. rewrite Hnone. simpl.
    destruct (find_all_in (soup parsed_html) (Some ["input"])
                [("type", Equals "button")]) as [|e l] eqn:Hl; [reflexivity|].
    exfalso.
    destruct (input_buttons_are_inputs parsed_html e) as [Hin Hty].
    { rewrite Hl. left. reflexivity. }
    rewrite Forall_forall in Hskipped.
    apply list_elem_of_In in Hin.
    destruct (Hskipped e Hin) as [_ Hne]. contradiction. }
  unfold FormLabelRule.check, ButtonAccessibleNameRule.check,
    ButtonAccessibleNameRule.unnamed.
  rewrite Hunlabeled, Hbuttons. simpl.
  destruct (0 <? length (inputs parsed_html))%nat;
    eexists; eexists; repeat split.
Qed.

End Controls.

Section ControlsSamples.
#[local] Existing Instance Sample.runtime.

Lemma skipped_inputs_unchecked_witness :
  length (inputs Cases.submit_only) = 3%nat
  /\ exists f g,
       FormLabelRule.check Cases.submit_only = Ok [f]
       /\ severity f = SeverityLevel.PASS
       /\ ButtonAccessibleNameRule.check Cases.submit_only = Ok [g]
       /\ severity g = SeverityLevel.PASS
       /\ message g = "No buttons found on page".
Proof.
  split; [reflexivity|].
  apply (skipped_inputs_unchecked Cases.submit_only); [|reflexivity].
  repeat (apply Forall_cons; split; [split; [reflexivity|discriminate]|]).
  constructor.
Defined.

(** The lowest score is reached: a page on which eight rules fail and the
    two heading rules warn scores 10.0. *)
Example worst_page_scores_ten :
  exists findings,
    engine.run_rules rules.ALL_RULES Cases.worst = Ok findings
    /\ engine.failures findings = 8%nat
    /\ engine.warnings findings = 2%nat
    /\ round1 (engine.score findings) = 10%float.
Proof.
  eexists. split; [vm_compute; reflexivity|]. repeat split; vm_compute; reflexivity.
Qed.

(** A scan of 1001 milliseconds is recorded with a duration of 1000: the
    seconds are a float, and 1.001 * 1000 is just below 1001. *)
Example duration_of_1001_ms : engine.duration_ms 0%Z 1001000%Z = 1000%Z.
Proof. vm_compute. reflexivity. Qed.

End ControlsSamples.
